(** * gertty/config.py: schema and resolution of the configuration document

    A shallow embedding of [ConfigSchema] and [Config] from
    [gertty/config.py], with the properties of the resolution pipeline
    stated over it.

    Conventions.
    - Python strings are [string]; a Python dict with string keys is a
      [gmap string _]; an [OrderedDict] is an association list, because
      the order of its keys is observable.
    - [d.get(k, default)] is [default (d !! k)]; [d[k]] on an absent key
      raises [KeyError].
    - The dict under the document's [size-column] key is mutated by
      [Config.__init__], so it lives in a store of dict objects and the
      document holds a reference to it.  The store holds the dicts that
      are written to after they are made; a dict that is only built
      and read is a value.
    - [os.path.expanduser] reads [HOME] from [os.environ], and
      [urlparse] raises [ValueError] on a URL it does not accept. *)

From Stdlib Require Import ZArith String Ascii List Bool.
From stdpp Require Import gmap strings list fin_maps.

Set Warnings "-register-all".
Open Scope string_scope.
Open Scope Z_scope.
Open Scope list_scope.

(* ===================================================================== *)
(** ** Python values and strings *)
(* ===================================================================== *)

(** The values [yaml.safe_load] produces below a mapping: scalars and
    lists.  (Mappings are the records and dicts of the sections below.) *)
Inductive pyval : Type :=
| PNone
| PBool (b : bool)
| PInt (n : Z)
| PStr (s : string)
| PList (l : list pyval).

(** [v == s] for a string literal [s]: only a [str] equals a [str]. *)
Definition py_eq_str (v : pyval) (s : string) : bool :=
  match v with
  | PStr t => String.eqb t s
  | _ => false
  end.

(** [s.endswith(suffix)]: some tail of [s] is [suffix]. *)
Fixpoint endswith (s suffix : string) : bool :=
  String.eqb s suffix
  || match s with
     | EmptyString => false
     | String _ rest => endswith rest suffix
     end.

(** Number of ["/"] characters at the end of a string. *)
Definition is_slash (c : ascii) : bool := Ascii.eqb c "/"%char.

Fixpoint leading_slashes (l : list ascii) : nat :=
  match l with
  | c :: l' => if is_slash c then S (leading_slashes l') else O
  | [] => O
  end.

Definition trailing_slashes (s : string) : nat :=
  leading_slashes (rev (list_ascii_of_string s)).

(* ===================================================================== *)
(** ** The schema library: how a list schema validates *)
(* ===================================================================== *)

Module Voluptuous.

(** The part of the validation library [ConfigSchema.thresholds]
    is written in: a class as a schema accepts its instances, and a
    list as a schema accepts a list each of whose elements is accepted
    by one of the schema's elements (an empty list schema accepts only
    the empty list). *)
Inductive pytype := TInt | TStr | TBool.

Inductive schema :=
| SType (t : pytype)
| SList (alternatives : list schema).

(** [isinstance(v, t)]; [bool] is a subclass of [int]. *)
Definition isinstance (v : pyval) (t : pytype) : bool :=
  match t, v with
  | TInt, PInt _ => true
  | TInt, PBool _ => true
  | TStr, PStr _ => true
  | TBool, PBool _ => true
  | _, _ => false
  end.

Fixpoint validate (s : schema) (data : pyval) : bool :=
  match s with
  | SType t => isinstance data t
  | SList alternatives =>
      match data with
      | PList values =>
          match alternatives with
          | [] => match values with [] => true | _ => false end
          | _ => forallb (fun value =>
                   existsb (fun alt => validate alt value) alternatives)
                   values
          end
      | _ => false
      end
  end.

End Voluptuous.

(* ===================================================================== *)
(** ** ConfigSchema *)
(* ===================================================================== *)

Module ConfigSchema.
Import Voluptuous.

(** [thresholds = [int, int, int, int, int, int, int, int]] *)
Definition thresholds : schema :=
  SList [SType TInt; SType TInt; SType TInt; SType TInt;
         SType TInt; SType TInt; SType TInt; SType TInt].

End ConfigSchema.

(* ===================================================================== *)
(** ** The document *)
(* ===================================================================== *)

(** A Python dict of scalars and lists, and the store of the dict
    objects that are shared between the document and the resolved
    configuration. *)
Abbreviation dict := (gmap string pyval).
Abbreviation loc := positive.
Abbreviation heap := (gmap loc dict).

(** A document that passed the schema is held as typed records: a
    [Required] key is a field, any other key an [option] field, a list
    schema a [list]. *)

(** [ConfigSchema.server] *)
Record ServerRecord := {
  srv_name : string;
  srv_url : string;
  srv_username : string;
  srv_password : option string;
  srv_verify_ssl : option bool;
  srv_ssl_ca_path : option string;
  srv_dburi : option string;
  srv_git_root : string;
  srv_git_url : option string;
  srv_log_file : option string;
  srv_lock_file : option string;
  srv_socket : option string;
  srv_auth_type : option string
}.

(** [ConfigSchema.palette] and [ConfigSchema.keymap]: a [name] and any
    number of other keys, none of which is [name] (the key pattern
    [(?!name)]). *)
Record NamedEntry := {
  entry_name : string;
  entry_attrs : dict
}.

(** The dict [p] itself, as it is handed to [Palette(p)] and
    [.update(p)]. *)
Definition entry_dict (p : NamedEntry) : dict :=
  <["name" := PStr (entry_name p)]> (entry_attrs p).

(** [ConfigSchema.replacement].  Every key of the three dict schemas is
    optional but [text], [url] and [query] inside them, so the empty
    dict is a replacement too. *)
Inductive Replacement :=
| ReplEmpty
| ReplText (text : string)
| ReplColorText (color : option string) (text : string)
| ReplLink (url text : string)
| ReplSearch (query text : string).

(** [ConfigSchema.commentlink] *)
Record CommentLinkRule := {
  cl_match : string;
  cl_replacements : list Replacement;
  cl_test_result : option string
}.

(** [ConfigSchema.dashboard] *)
Record Dashboard := {
  dash_name : string;
  dash_query : string;
  dash_sort_by : option pyval;
  dash_reverse : option bool;
  dash_key : string
}.

(** [ConfigSchema.reviewkey] *)
Record ReviewKey := {
  rk_approvals : list (string * Z);
  rk_message : option string;
  rk_submit : option bool;
  rk_key : string
}.

(** [ConfigSchema.change_list_options] *)
Record ChangeListOptions := {
  clo_sort_by : option pyval;
  clo_reverse : option bool
}.

(** The top-level mapping.  The dict under [size-column] is the one
    part of the document that [Config.__init__] writes to, so the
    document is described twice: as it is written in the file, where
    [size-column] is a dict, and as [yaml.safe_load] builds it in
    memory, where [size-column] is a reference to a dict object. *)
Record DocumentOf (SizeColumn : Type) := {
  doc_servers : list ServerRecord;
  doc_palettes : option (list NamedEntry);
  doc_palette : option string;
  doc_keymaps : option (list NamedEntry);
  doc_keymap : option string;
  doc_commentlinks : option (list CommentLinkRule);
  doc_dashboards : option (list Dashboard);
  doc_reviewkeys : option (list ReviewKey);
  doc_change_list_query : option string;
  doc_diff_view : option string;
  doc_hide_comments : option (list string);
  doc_thread_changes : option bool;
  doc_display_times_in_utc : option bool;
  doc_handle_mouse : option bool;
  doc_breadcrumbs : option bool;
  doc_close_change_on_review : option bool;
  doc_change_list_options : option ChangeListOptions;
  doc_expire_age : option string;
  doc_size_column : option SizeColumn
}.
Arguments doc_servers {SizeColumn} _.
Arguments doc_palettes {SizeColumn} _.
Arguments doc_palette {SizeColumn} _.
Arguments doc_keymaps {SizeColumn} _.
Arguments doc_keymap {SizeColumn} _.
Arguments doc_commentlinks {SizeColumn} _.
Arguments doc_dashboards {SizeColumn} _.
Arguments doc_reviewkeys {SizeColumn} _.
Arguments doc_change_list_query {SizeColumn} _.
Arguments doc_diff_view {SizeColumn} _.
Arguments doc_hide_comments {SizeColumn} _.
Arguments doc_thread_changes {SizeColumn} _.
Arguments doc_display_times_in_utc {SizeColumn} _.
Arguments doc_handle_mouse {SizeColumn} _.
Arguments doc_breadcrumbs {SizeColumn} _.
Arguments doc_close_change_on_review {SizeColumn} _.
Arguments doc_change_list_options {SizeColumn} _.
Arguments doc_expire_age {SizeColumn} _.
Arguments doc_size_column {SizeColumn} _.

Abbreviation Document := (DocumentOf loc).
Abbreviation WrittenDocument := (DocumentOf dict).

(** The same document with another [size-column]. *)
Definition with_size_column {A B} (d : DocumentOf A) (size_column : option B)
  : DocumentOf B :=
  {| doc_servers := doc_servers d; doc_palettes := doc_palettes d;
     doc_palette := doc_palette d; doc_keymaps := doc_keymaps d;
     doc_keymap := doc_keymap d; doc_commentlinks := doc_commentlinks d;
     doc_dashboards := doc_dashboards d; doc_reviewkeys := doc_reviewkeys d;
     doc_change_list_query := doc_change_list_query d;
     doc_diff_view := doc_diff_view d;
     doc_hide_comments := doc_hide_comments d;
     doc_thread_changes := doc_thread_changes d;
     doc_display_times_in_utc := doc_display_times_in_utc d;
     doc_handle_mouse := doc_handle_mouse d;
     doc_breadcrumbs := doc_breadcrumbs d;
     doc_close_change_on_review := doc_close_change_on_review d;
     doc_change_list_options := doc_change_list_options d;
     doc_expire_age := doc_expire_age d;
     doc_size_column := size_column |}.

(** What is found at a path: nothing, a file that does not parse or
    does not pass the schema, or a document. *)
Inductive FileContent :=
| Missing
| Malformed
| Valid (written : WrittenDocument).

(* ===================================================================== *)
(** ** Effects of [Config.__init__] *)
(* ===================================================================== *)

(** What the process does that is seen from outside, in order. *)
Inductive event :=
| Printed (text : string)
| Prompted (prompt : string)
| Statted (path : string).

(** The mutable state the constructor touches: the dict objects, the
    process environment [os.environ], and what it printed and asked. *)
Record state := {
  store : heap;
  environ : gmap string string;
  events : list event
}.

Inductive exn :=
| KeyError (key : string)
| TypeError (what : string)
| ValueError
| Invalid
| ReError (pattern : string).

(** A call returns, leaves through [sys.exit], or raises. *)
Inductive result (A : Type) :=
| Ok (a : A)
| SysExit (code : Z)
| Raised (e : exn).
Arguments Ok {A} a.
Arguments SysExit {A} code.
Arguments Raised {A} e.

Definition M (A : Type) : Type := state -> result A * state.

(** [os.environ.get('HOME')] *)
Definition home (st : state) : option string := environ st !! "HOME".

#[global] Instance M_ret : MRet M := fun A a st => (Ok a, st).

#[global] Instance M_bind : MBind M := fun A B k m st =>
  match m st with
  | (Ok a, st') => k a st'
  | (SysExit code, st') => (SysExit code, st')
  | (Raised e, st') => (Raised e, st')
  end.

(** The call came back with a value. *)
Definition returns {A} (r : result A * state) : bool :=
  match r with
  | (Ok _, _) => true
  | _ => false
  end.

Definition raise {A} (e : exn) : M A := fun st => (Raised e, st).

Definition sys_exit {A} (code : Z) : M A := fun st => (SysExit code, st).

Definition emit (e : event) : M unit := fun st =>
  (Ok tt, {| store := store st; environ := environ st;
             events := events st ++ [e] |}).

Definition print (text : string) : M unit := emit (Printed text).

(** [os.environ[k] = v] *)
Definition setenv (k v : string) : M unit := fun st =>
  (Ok tt, {| store := store st; environ := <[k := v]> (environ st);
             events := events st |}).

(** A new dict object with the items of [d]; [{}] is [new_dict ∅]. *)
Definition new_dict (d : dict) : M loc := fun st =>
  let l := fresh (dom (store st)) in
  (Ok l, {| store := <[l := d]> (store st); environ := environ st;
            events := events st |}).

(** [yaml.safe_load] of a file that holds [written]: the dict of its
    [size-column] section becomes an object. *)
Definition yaml_safe_load (written : WrittenDocument) : M Document :=
  match doc_size_column written with
  | Some d => l ← new_dict d; mret (with_size_column written (Some l))
  | None => mret (with_size_column written None)
  end.

(** [d.get(k, dflt)], [d[k]] and [d[k] = v] on the dict object at [l].
    Every reference comes from [new_dict], so a location that holds no
    object is not met in a run; the operations are made total by an
    error there. *)
Definition dict_get (l : loc) (k : string) (dflt : pyval) : M pyval := fun st =>
  match store st !! l with
  | Some d => (Ok (default dflt (d !! k)), st)
  | None => (Raised (TypeError "dangling reference"), st)
  end.

Definition dict_getitem (l : loc) (k : string) : M pyval := fun st =>
  match store st !! l with
  | Some d => match d !! k with
              | Some v => (Ok v, st)
              | None => (Raised (KeyError k), st)
              end
  | None => (Raised (TypeError "dangling reference"), st)
  end.

Definition dict_setitem (l : loc) (k : string) (v : pyval) : M unit := fun st =>
  match store st !! l with
  | Some d => (Ok tt, {| store := <[l := <[k := v]> d]> (store st);
                         environ := environ st; events := events st |})
  | None => (Raised (TypeError "dangling reference"), st)
  end.

(** The machine the process runs on: the files, their modes, and what
    is typed at the terminal in answer to a prompt. *)
Record Host := {
  host_file : string -> FileContent;
  host_st_mode : string -> Z;
  host_typed : string -> string
}.

(** [os.stat(path).st_mode] *)
Definition os_stat_st_mode (host : Host) (path : string) : M Z := fun st =>
  (Ok (host_st_mode host path),
   {| store := store st; environ := environ st;
      events := events st ++ [Statted path] |}).

(** [getpass.getpass(prompt)] *)
Definition getpass (host : Host) (prompt : string) : M string := fun st =>
  (Ok (host_typed host prompt),
   {| store := store st; environ := environ st;
      events := events st ++ [Prompted prompt] |}).

(** [oct(n)], as Python 3 writes it. *)
Fixpoint oct_digits (fuel : nat) (n : Z) (acc : string) : string :=
  match fuel with
  | O => acc
  | S fuel' =>
      let acc' := String (ascii_of_nat (48 + Z.to_nat (n mod 8))) acc in
      if n / 8 =? 0 then acc' else oct_digits fuel' (n / 8) acc'
  end.

Definition oct (n : Z) : string :=
  if n <? 0
  then "-0o" +:+ oct_digits (S (Z.to_nat (Z.log2 (- n)))) (- n) EmptyString
  else "0o" +:+ oct_digits (S (Z.to_nat (Z.log2 n))) n EmptyString.

(** An [OrderedDict]: [od[k] = v] replaces the value of a key that is
    there, in its place, and puts a new key last. *)
Fixpoint od_setitem {V} (k : string) (v : V) (od : list (string * V))
  : list (string * V) :=
  match od with
  | [] => [(k, v)]
  | (k', v') :: rest =>
      if String.eqb k' k then (k, v) :: rest
      else (k', v') :: od_setitem k v rest
  end.

Fixpoint od_get {V} (k : string) (od : list (string * V)) : option V :=
  match od with
  | [] => None
  | (k', v') :: rest => if String.eqb k' k then Some v' else od_get k rest
  end.

Definition od_keys {V} (od : list (string * V)) : list string := map fst od.

(* ===================================================================== *)
(** ** Config *)
(* ===================================================================== *)

(** The modules [gertty.palette], [gertty.keymap] and
    [gertty.commentlink] and the library calls [re.compile],
    [os.path.expanduser] and [urlparse] are taken as given: [Config]
    only constructs palettes, key maps and comment links, and calls
    their [update].  [expanduser] is given the value of [HOME], which
    [os.path.expanduser] reads from [os.environ] at each call (with no
    [HOME] it asks the password database); [urlparse_netloc] is [None]
    for a URL on which [urlparse] raises [ValueError], and
    [re_compile] is [None] for a pattern on which [re.compile]
    raises. *)
Class Collaborators := {
  Palette : Type;
  Palette_new : dict -> Palette;
  Palette_update : Palette -> dict -> Palette;
  LIGHT_PALETTE : dict;
  KeyMap : Type;
  KeyMap_new : dict -> KeyMap;
  KeyMap_update : KeyMap -> dict -> KeyMap;
  VI_KEYMAP : dict;
  CommentLink : Type;
  CommentLink_new : CommentLinkRule -> CommentLink;
  Pattern : Type;
  re_compile : string -> option Pattern;
  expanduser : option string -> string -> string;
  urlparse_netloc : string -> option string
}.

Definition DEFAULT_CONFIG_PATH : string := "~/.gertty.yaml".

(** [url] with a ["/"] added [if not url.endswith('/')]. *)
Definition with_trailing_slash (url : string) : string :=
  if negb (endswith url "/") then url +:+ "/" else url.

(** ["Password for %s (%s): " % (url, username)] *)
Definition password_prompt (url username : string) : string :=
  "Password for " +:+ url +:+ " (" +:+ username +:+ "): ".

(** The message of lines 174-176, [mode] written by [oct]. *)
Definition insecure_permissions (path : string) (mode : Z) : string :=
  "Error: Config file '" +:+ path
  +:+ "' contains a password and does not have permissions set to 0600.
Permissions are: " +:+ oct mode.

(** One turn of the loop over [palettes] (or [keymaps]):
<<
    if p['name'] not in self.palettes:
        self.palettes[p['name']] = Palette(p)
    else:
        self.palettes[p['name']].update(p)
>> *)
Definition layer {T} (new : dict -> T) (update : T -> dict -> T)
    (collection : gmap string T) (p : NamedEntry) : gmap string T :=
  match collection !! entry_name p with
  | None => <[entry_name p := new (entry_dict p)]> collection
  | Some object => <[entry_name p := update object (entry_dict p)]> collection
  end.

(** The rule appended after the document's [commentlinks]. *)
Definition url_autolink : CommentLinkRule :=
  {| cl_match := "(?P<url>https?://\S*)";
     cl_replacements := [ReplLink "{url}" "{url}"];
     cl_test_result := None |}.

(** [for d in ...: od[d['key']] = d] *)
Definition keyed {V} (key : V -> string) (entries : list V)
  : list (string * V) :=
  foldl (fun od d => od_setitem (key d) d od) [] entries.

Section Config.
Context `{Collaborators}.

Record Config := {
  path : string;
  config : Document;
  server : ServerRecord;
  url : string;
  hostname : string;
  username : string;
  password : string;
  auth_type : string;
  verify_ssl : bool;
  ssl_ca_path : option string;
  git_root : string;
  git_url : string;
  dburi : string;
  socket_path : string;
  log_file : string;
  lock_file : string;
  palettes : gmap string Palette;
  palette : Palette;
  keymaps : gmap string KeyMap;
  keymap : KeyMap;
  commentlinks : list CommentLink;
  project_change_list_query : string;
  diff_view : string;
  dashboards : list (string * Dashboard);
  reviewkeys : list (string * ReviewKey);
  hide_comments : list Pattern;
  thread_changes : bool;
  utc : bool;
  breadcrumbs : bool;
  close_change_on_review : bool;
  handle_mouse : bool;
  change_list_options : pyval * bool;
  expire_age : string;
  size_column : loc
}.

(** [os.path.expanduser(path)] *)
Definition os_path_expanduser (path : string) : M string := fun st =>
  (Ok (expanduser (home st) path), st).

(** [urlparse.urlparse(url).netloc] *)
Definition urlparse (url : string) : M string :=
  match urlparse_netloc url with
  | Some netloc => mret netloc
  | None => raise ValueError
  end.

(** [Config.getServer] *)
Fixpoint getServer_loop (servers : list ServerRecord) (name : option string)
  : option ServerRecord :=
  match servers with
  | [] => None
  | server :: rest =>
      match name with
      | None => Some server
      | Some n => if String.eqb n (srv_name server) then Some server
                  else getServer_loop rest name
      end
  end.

Definition getServer {R} (config : DocumentOf R) (name : option string)
  : option ServerRecord :=
  getServer_loop (doc_servers config) name.

(** [Config.printSample] *)
Definition printSample : M unit :=
  let filename := "share/gertty/examples" in
  print ("Gertty requires a configuration file at ~/.gertty.yaml
If the file contains a password then permissions must be set to 0600.

Several sample configuration files were installed with Gertty and are
available in " +:+ filename +:+ " in the root of the installation.

For more information, please see the README.
").

(** Lines 164-177: the password of the server record, or the one
    typed at the prompt. *)
Definition resolve_password (host : Host) (path url username : string)
    (server : ServerRecord) : M string :=
  match srv_password server with
  | None => getpass host (password_prompt url username)
  | Some password =>
      st_mode ← os_stat_st_mode host path;
      let mode := Z.land st_mode 511 (* 0o0777 *) in
      if negb (mode =? 384 (* 0o600 *))
      then print (insecure_permissions path mode);; sys_exit 1
      else mret password
  end.

(** Lines 203-211 and 213-220. *)
Definition resolve_palettes (entries : list NamedEntry) : gmap string Palette :=
  foldl (layer Palette_new Palette_update)
    (<["default" := Palette_new ∅]>
       (<["light" := Palette_new LIGHT_PALETTE]> ∅))
    entries.

Definition resolve_keymaps (entries : list NamedEntry) : gmap string KeyMap :=
  foldl (layer KeyMap_new KeyMap_update)
    (<["default" := KeyMap_new ∅]>
       (<["vi" := KeyMap_new VI_KEYMAP]> ∅))
    entries.

(** [collection[name]] *)
Definition getitem {T} (collection : gmap string T) (name : string) : M T :=
  match collection !! name with
  | Some object => mret object
  | None => raise (KeyError name)
  end.

(** Lines 222-230. *)
Definition resolve_commentlinks (rules : list CommentLinkRule)
  : list CommentLink :=
  map CommentLink_new rules ++ [CommentLink_new url_autolink].

(** Lines 245-247. *)
Fixpoint resolve_hide_comments (authors : list string) : M (list Pattern) :=
  match authors with
  | [] => mret []
  | author :: rest =>
      match re_compile author with
      | None => raise (ReError author)
      | Some pattern =>
          patterns ← resolve_hide_comments rest;
          mret (pattern :: patterns)
      end
  end.

(** Lines 262-269.  [self.config.get('size-column', {})] is the dict
    object of the document when the key is there, and a new one
    otherwise. *)
Definition resolve_size_column (config : Document) : M loc :=
  size_column ← match doc_size_column config with
                | Some l => mret l
                | None => new_dict ∅
                end;
  type ← dict_get size_column "type" (PStr "graph");
  dict_setitem size_column "type" type;;
  type ← dict_getitem size_column "type";
  (if py_eq_str type "graph"
   then thresholds ← dict_get size_column "thresholds"
                       (PList (map PInt [1; 10; 100; 1000]));
        dict_setitem size_column "thresholds" thresholds
   else thresholds ← dict_get size_column "thresholds"
                       (PList (map PInt [1; 10; 100; 200; 400; 600; 800; 1000]));
        dict_setitem size_column "thresholds" thresholds);;
  mret size_column.

End Config.

Section Init.
Context `{Collaborators}.

(** [Config.__init__(self, server, palette, keymap, path)] *)
Definition Config_init (host : Host) (server : option string)
    (palette keymap : string) (path : string) : M Config :=
  path ← os_path_expanduser path;
  match host_file host path with
  | Missing => printSample;; sys_exit 1
  | Malformed => raise Invalid
  | Valid written =>
      config ← yaml_safe_load written;
      server ← match getServer config server with
               | Some server => mret server
               | None => raise (TypeError "'NoneType' object is not subscriptable")
               end;
      let url := with_trailing_slash (srv_url server) in
      hostname ← urlparse url;
      let username := srv_username server in
      password ← resolve_password host path url username server;
      let auth_type := default "digest" (srv_auth_type server) in
      let verify_ssl := default true (srv_verify_ssl server) in
      (if negb verify_ssl then setenv "GIT_SSL_NO_VERIFY" "true" else mret tt);;
      ssl_ca_path ← match srv_ssl_ca_path server with
                    | Some ca =>
                        ca ← os_path_expanduser ca;
                        setenv "REQUESTS_CA_BUNDLE" ca;;
                        setenv "GIT_SSL_CAINFO" ca;;
                        mret (Some ca)
                    | None => mret None
                    end;
      git_root ← os_path_expanduser (srv_git_root server);
      let git_url :=
        with_trailing_slash (default (url +:+ "p/") (srv_git_url server)) in
      db ← os_path_expanduser "~/.gertty.db";
      let dburi := default ("sqlite:///" +:+ db) (srv_dburi server) in
      socket_path ←
        os_path_expanduser (default "~/.gertty.sock" (srv_socket server));
      log_file ←
        os_path_expanduser (default "~/.gertty.log" (srv_log_file server));
      lock_file ←
        os_path_expanduser
          (default ("~/.gertty." +:+ srv_name server +:+ ".lock")
             (srv_lock_file server));
      let palettes := resolve_palettes (default [] (doc_palettes config)) in
      palette ← getitem palettes (default palette (doc_palette config));
      let keymaps := resolve_keymaps (default [] (doc_keymaps config)) in
      keymap ← getitem keymaps (default keymap (doc_keymap config));
      let commentlinks :=
        resolve_commentlinks (default [] (doc_commentlinks config)) in
      let project_change_list_query :=
        default "status:open" (doc_change_list_query config) in
      let diff_view := default "side-by-side" (doc_diff_view config) in
      let dashboards := keyed dash_key (default [] (doc_dashboards config)) in
      let reviewkeys := keyed rk_key (default [] (doc_reviewkeys config)) in
      hide_comments ←
        resolve_hide_comments (default [] (doc_hide_comments config));
      let thread_changes := default true (doc_thread_changes config) in
      let utc := default false (doc_display_times_in_utc config) in
      let breadcrumbs := default true (doc_breadcrumbs config) in
      let close_change_on_review :=
        default false (doc_close_change_on_review config) in
      let handle_mouse := default true (doc_handle_mouse config) in
      let change_list_options :=
        default {| clo_sort_by := None; clo_reverse := None |}
          (doc_change_list_options config) in
      let change_list_options :=
        (default (PStr "number") (clo_sort_by change_list_options),
         default false (clo_reverse change_list_options)) in
      let expire_age := default "2 months" (doc_expire_age config) in
      size_column ← resolve_size_column config;
      mret {| path := path; config := config; server := server; url := url;
              hostname := hostname; username := username;
              password := password; auth_type := auth_type;
              verify_ssl := verify_ssl; ssl_ca_path := ssl_ca_path;
              git_root := git_root; git_url := git_url; dburi := dburi;
              socket_path := socket_path; log_file := log_file;
              lock_file := lock_file; palettes := palettes;
              palette := palette; keymaps := keymaps; keymap := keymap;
              commentlinks := commentlinks;
              project_change_list_query := project_change_list_query;
              diff_view := diff_view; dashboards := dashboards;
              reviewkeys := reviewkeys; hide_comments := hide_comments;
              thread_changes := thread_changes; utc := utc;
              breadcrumbs := breadcrumbs;
              close_change_on_review := close_change_on_review;
              handle_mouse := handle_mouse;
              change_list_options := change_list_options;
              expire_age := expire_age; size_column := size_column |}
  end.

End Init.

(* ===================================================================== *)
(** ** Two readings of the collaborators *)
(* ===================================================================== *)

(** A palette or key map as the record of the calls that made it: the
    argument of the constructor, and of every [update] since. *)
Inductive Made :=
| New (config : dict)
| Updated (object : Made) (config : dict).

(** [~] alone or before a [/] is the value of [HOME], and [/home/user]
    when [HOME] is not set; any other path is left as it is. *)
Definition expanduser_home (home : option string) (p : string) : string :=
  match p with
  | String "~"%char EmptyString => default "/home/user" home
  | String "~"%char (String "/"%char rest) =>
      default "/home/user" home +:+ "/" +:+ rest
  | _ => p
  end.

(** The part of a URL between [//] and the next [/], [?] or [#]; a URL
    in which that part opens a bracket and does not close it, or closes
    one it did not open, is refused. *)
Definition ends_netloc (c : ascii) : bool :=
  is_slash c || Ascii.eqb c "?"%char || Ascii.eqb c "#"%char.

Fixpoint up_to_delimiter (s : string) : string :=
  match s with
  | EmptyString => EmptyString
  | String c rest =>
      if ends_netloc c then EmptyString else String c (up_to_delimiter rest)
  end.

Fixpoint after_slashes (s : string) : string :=
  match s with
  | String "/"%char (String "/"%char rest) => up_to_delimiter rest
  | String _ rest => after_slashes rest
  | EmptyString => EmptyString
  end.

Fixpoint has_char (c : ascii) (s : string) : bool :=
  match s with
  | EmptyString => false
  | String c' rest => Ascii.eqb c' c || has_char c rest
  end.

Definition netloc (s : string) : option string :=
  let n := after_slashes s in
  if Bool.eqb (has_char "["%char n) (has_char "]"%char n) then Some n else None.

(** The constants [LIGHT_PALETTE] and [VI_KEYMAP] belong to
    [gertty.palette] and [gertty.keymap]; one entry stands for each. *)
Definition recording : Collaborators :=
  {| Palette := Made; Palette_new := New; Palette_update := Updated;
     LIGHT_PALETTE := {[ "header" := PList [PStr "black"; PStr "light gray"] ]};
     KeyMap := Made; KeyMap_new := New; KeyMap_update := Updated;
     VI_KEYMAP := {[ "quit" := PStr "q" ]};
     CommentLink := CommentLinkRule; CommentLink_new := id;
     Pattern := string; re_compile := Some;
     expanduser := expanduser_home;
     urlparse_netloc := netloc |}.

(** Modelled from the spec: the classes [gertty.palette.Palette] and
    [gertty.keymap.KeyMap], which [config.py] imports and does not
    define.  The spec calls them value objects with fields: an entry is
    inserted as it is, and an entry whose name exists has its fields
    merged in by a shallow update, the new fields winning. *)
Definition fields_new (config : dict) : dict := config.

Definition fields_update (object config : dict) : dict := config ∪ object.

Definition with_fields (base : Collaborators) : Collaborators :=
  {| Palette := dict; Palette_new := fields_new; Palette_update := fields_update;
     LIGHT_PALETTE := @LIGHT_PALETTE base;
     KeyMap := dict; KeyMap_new := fields_new; KeyMap_update := fields_update;
     VI_KEYMAP := @VI_KEYMAP base;
     CommentLink := @CommentLink base; CommentLink_new := @CommentLink_new base;
     Pattern := @Pattern base; re_compile := @re_compile base;
     expanduser := @expanduser base;
     urlparse_netloc := @urlparse_netloc base |}.

(** A document with one server and nothing else, and a host that holds
    it at [/home/user/.gertty.yaml]. *)
Definition a_server (url : string) (password git_url : option string)
  : ServerRecord :=
  {| srv_name := "prod"; srv_url := url; srv_username := "alice";
     srv_password := password; srv_verify_ssl := None;
     srv_ssl_ca_path := None; srv_dburi := None; srv_git_root := "~/git";
     srv_git_url := git_url; srv_log_file := None; srv_lock_file := None;
     srv_socket := None; srv_auth_type := None |}.

Definition a_document_of (servers : list ServerRecord)
    (palettes : option (list NamedEntry)) (palette : option string)
    (keymaps : option (list NamedEntry)) (keymap : option string)
    (commentlinks : option (list CommentLinkRule))
    (dashboards : option (list Dashboard))
    (reviewkeys : option (list ReviewKey))
    (size_column : option dict) : WrittenDocument :=
  {| doc_servers := servers; doc_palettes := palettes; doc_palette := palette;
     doc_keymaps := keymaps; doc_keymap := keymap;
     doc_commentlinks := commentlinks;
     doc_dashboards := dashboards; doc_reviewkeys := reviewkeys;
     doc_change_list_query := None; doc_diff_view := None;
     doc_hide_comments := None; doc_thread_changes := None;
     doc_display_times_in_utc := None; doc_handle_mouse := None;
     doc_breadcrumbs := None; doc_close_change_on_review := None;
     doc_change_list_options := None; doc_expire_age := None;
     doc_size_column := size_column |}.

Definition a_document (servers : list ServerRecord) : WrittenDocument :=
  a_document_of servers None None None None None None None None.

Definition a_dashboard (name key : string) : Dashboard :=
  {| dash_name := name; dash_query := "status:open"; dash_sort_by := None;
     dash_reverse := None; dash_key := key |}.

Definition a_reviewkey (value : Z) (key : string) : ReviewKey :=
  {| rk_approvals := [("Code-Review", value)]; rk_message := None;
     rk_submit := None; rk_key := key |}.

Definition a_rule (pattern : string) : CommentLinkRule :=
  {| cl_match := pattern; cl_replacements := [ReplText "bug"];
     cl_test_result := None |}.

Definition a_host (written : WrittenDocument) (st_mode : Z) : Host :=
  {| host_file := fun p =>
       if String.eqb p "/home/user/.gertty.yaml" then Valid written else Missing;
     host_st_mode := fun _ => st_mode;
     host_typed := fun _ => "secret" |}.

Definition a_state (objects : heap) : state :=
  {| store := objects; environ := ∅; events := [] |}.

(** A document whose [size-column] section is [d]. *)
Definition a_document_with_size_column (d : dict) : WrittenDocument :=
  a_document_of [a_server "http://h" None None] None None None None
    None None None (Some d).

Definition an_entry (name field : string) (colours : list string) : NamedEntry :=
  {| entry_name := name;
     entry_attrs := {[ field := PList (map PStr colours) ]} |}.

Definition a_document_with_themes (palette keymap : option string)
  : WrittenDocument :=
  a_document_of [a_server "http://h" None None]
    (Some [an_entry "light" "header" ["white"; "dark blue"];
           an_entry "mine" "footer" ["yellow"];
           an_entry "light" "footer" ["black"]])
    palette
    (Some [an_entry "mine" "quit" ["Q"]])
    keymap None None None None.

Definition three_dashboards : list Dashboard :=
  [a_dashboard "mine" "f2"; a_dashboard "starred" "f3";
   a_dashboard "incoming" "f2"].

Definition three_reviewkeys : list ReviewKey :=
  [a_reviewkey 1 "meta 1"; a_reviewkey 2 "meta 2"; a_reviewkey (-1) "meta 1"].

Definition a_document_with_lists : WrittenDocument :=
  a_document_of [a_server "http://h" None None] None None None None
    (Some [a_rule "bug (\d+)"; a_rule "change (\d+)"])
    (Some three_dashboards) (Some three_reviewkeys) None.

(* ===================================================================== *)
(** ** Words of the specification *)
(* ===================================================================== *)

(** The keys of a list, each where it is first seen. *)
Fixpoint first_seen (keys : list string) : list string :=
  match keys with
  | [] => []
  | k :: rest => k :: filter (fun k' => k' <> k) (first_seen rest)
  end.

(** The last entry of a list that has the key [k]. *)
Definition latest {V} (key : V -> string) (k : string) (entries : list V)
  : option V :=
  last (filter (fun d => key d = k) entries).

(** An ordered mapping [od] is the keyed list of [entries]: its keys are
    the keys of the entries in the order of their first appearance, a
    key is mapped to the last entry that has it, and where two entries
    have the same key and no entry after them has it, the mapping has
    one item for that key, the second of the two. *)
Definition is_keyed_list {V} (key : V -> string) (entries : list V)
    (od : list (string * V)) : Prop :=
  od_keys od = first_seen (map key entries)
  /\ (forall k, od_get k od = latest key k entries)
  /\ (forall before e1 between e2 after,
        entries = before ++ e1 :: between ++ e2 :: after ->
        key e1 = key e2 ->
        Forall (fun d => key d <> key e2) after ->
        filter (fun item => item.1 = key e2) od = [(key e2, e2)]).

(** A computation that leaves the dict objects alone. *)
Definition keeps_store {A} (m : M A) : Prop :=
  forall st, store (m st).2 = store st.

(** A computation that prints nothing, asks nothing and looks at no file. *)
Definition quiet {A} (m : M A) : Prop :=
  forall st, events (m st).2 = events st.

(** A collection [resolved] is [entries] layered by [resolve]: an entry
    whose name is in the collection when the entry is reached has its
    fields merged into the object of that name, its own fields winning;
    an entry whose name is not there is put in as it is; before the
    first entry of a name the object of that name is the built-in one;
    and after the last entry of a name the object stays as it is. *)
Definition inserts_or_merges (resolve : list NamedEntry -> gmap string dict)
    (entries : list NamedEntry) (resolved : gmap string dict) : Prop :=
  forall before p after, entries = before ++ p :: after ->
    let present := resolve before in
    let next := resolve (before ++ [p]) in
    let n := entry_name p in
    (forall object, present !! n = Some object ->
       next !! n = Some (entry_dict p ∪ object)
       /\ forall field,
            (entry_dict p ∪ object) !! field
            = match entry_dict p !! field with
              | Some v => Some v
              | None => object !! field
              end)
    /\ (present !! n = None -> next !! n = Some (entry_dict p))
    /\ (forall m, m <> n -> next !! m = present !! m)
    /\ (Forall (fun q => entry_name q <> n) before ->
        present !! n = resolve [] !! n)
    /\ (Forall (fun q => entry_name q <> n) after ->
        resolved !! n = next !! n).

(** The dict [d] of a [size-column] section with [type] and
    [thresholds] written where they are absent. *)
Definition with_size_defaults (d : dict) : dict :=
  let type := default (PStr "graph") (d !! "type") in
  let thresholds :=
    default (if py_eq_str type "graph"
             then PList (map PInt [1; 10; 100; 1000])
             else PList (map PInt [1; 10; 100; 200; 400; 600; 800; 1000]))
      (d !! "thresholds") in
  <["thresholds" := thresholds]> (<["type" := type]> d).

(** The number that a string of the form [0o...] writes in octal. *)
Definition octal_digit (c : ascii) : option Z :=
  let n := Z.of_nat (nat_of_ascii c) - 48 in
  if (0 <=? n) && (n <? 8) then Some n else None.

Fixpoint octal_digits_value (digits : string) (acc : Z) : option Z :=
  match digits with
  | EmptyString => Some acc
  | String c rest =>
      match octal_digit c with
      | Some d => octal_digits_value rest (8 * acc + d)
      | None => None
      end
  end.

Definition octal_value (s : string) : option Z :=
  match s with
  | String "0"%char (String "o"%char (String c rest)) =>
      octal_digits_value (String c rest) 0
  | _ => None
  end.

Definition set_store (st : state) (objects : heap) : state :=
  {| store := objects; environ := environ st; events := events st |}.

Definition size_column_of (st : state) (l : loc) (k : string) : option pyval :=
  store st !! l ≫= (.!! k).

(* ===================================================================== *)
(** ** The enumerations of the schema *)
(* ===================================================================== *)

Module VoluptuousAny.

(** The validation library with two more forms of schema beside classes
    and lists: a literal value, which accepts the data equal to it, and
    [Any], which accepts what one of its alternatives accepts.  The
    literals of [ConfigSchema] are strings and [None]. *)
Inductive schema :=
| SType (t : Voluptuous.pytype)
| SList (alternatives : list schema)
| SStr (literal : string)
| SNone
| SAny (alternatives : list schema).

Fixpoint validate (s : schema) (data : pyval) : bool :=
  match s with
  | SType t => Voluptuous.isinstance data t
  | SList alternatives =>
      match data with
      | PList values =>
          match alternatives with
          | [] => match values with [] => true | _ => false end
          | _ => forallb (fun value =>
                   existsb (fun alt => validate alt value) alternatives)
                   values
          end
      | _ => false
      end
  | SStr literal => py_eq_str data literal
  | SNone => match data with PNone => true | _ => false end
  | SAny alternatives => existsb (fun alt => validate alt data) alternatives
  end.

(** A schema of classes and lists, read as a schema of this module. *)
Fixpoint lift (s : Voluptuous.schema) : schema :=
  match s with
  | Voluptuous.SType t => SType t
  | Voluptuous.SList alternatives => SList (map lift alternatives)
  end.

End VoluptuousAny.

Module ConfigSchemaAny.
Import VoluptuousAny.

(** ['auth-type': v.Any('basic', 'digest', 'form')] *)
Definition auth_type : schema :=
  SAny [SStr "basic"; SStr "digest"; SStr "form"].

(** [_sort_by = v.Any('number', 'updated', 'last-seen', 'project')] *)
Definition _sort_by : schema :=
  SAny [SStr "number"; SStr "updated"; SStr "last-seen"; SStr "project"].

(** [sort_by = v.Any(_sort_by, [_sort_by])] *)
Definition sort_by : schema := SAny [_sort_by; SList [_sort_by]].

(** [v.Any('graph', 'split-graph', 'number', 'disabled', None)], the
    schema of [type] in [size_column]. *)
Definition size_column_type : schema :=
  SAny [SStr "graph"; SStr "split-graph"; SStr "number"; SStr "disabled";
        SNone].

End ConfigSchemaAny.

(* ===================================================================== *)
(** ** Vocabulary of the further properties *)
(* ===================================================================== *)

(** [os.environ] after lines 178-188 have run for the server record
    [srv], [expand] being [os.path.expanduser]. *)
Definition tls_environ (expand : string -> string) (srv : ServerRecord)
    (env : gmap string string) : gmap string string :=
  let env1 :=
    if default true (srv_verify_ssl srv) then env
    else <["GIT_SSL_NO_VERIFY" := "true"]> env in
  match srv_ssl_ca_path srv with
  | Some ca =>
      <["GIT_SSL_CAINFO" := expand ca]>
        (<["REQUESTS_CA_BUNDLE" := expand ca]> env1)
  | None => env1
  end.

(** What the password step of a run that goes on has done at the
    terminal and on the file system. *)
Definition password_events (file prompt : string) (srv : ServerRecord)
  : list event :=
  match srv_password srv with
  | None => [Prompted prompt]
  | Some _ => [Statted file]
  end.

(** A server record with some TLS settings. *)
Definition a_tls_server (verify_ssl : option bool) (ca : option string)
  : ServerRecord :=
  {| srv_name := "prod"; srv_url := "https://h/"; srv_username := "alice";
     srv_password := None; srv_verify_ssl := verify_ssl;
     srv_ssl_ca_path := ca; srv_dburi := None; srv_git_root := "~/git";
     srv_git_url := None; srv_log_file := None; srv_lock_file := None;
     srv_socket := None; srv_auth_type := None |}.

(** A server record of a given name, with nothing optional set. *)
Definition a_server_named (name : string) : ServerRecord :=
  {| srv_name := name; srv_url := "http://h/"; srv_username := "alice";
     srv_password := None; srv_verify_ssl := None;
     srv_ssl_ca_path := None; srv_dburi := None; srv_git_root := "~/git";
     srv_git_url := None; srv_log_file := None; srv_lock_file := None;
     srv_socket := None; srv_auth_type := None |}.

(** The names under which a document has a palette, and a key map. *)
Definition palette_names {R} (doc : DocumentOf R) : list string :=
  "default" :: "light" :: map entry_name (default [] (doc_palettes doc)).

Definition keymap_names {R} (doc : DocumentOf R) : list string :=
  "default" :: "vi" :: map entry_name (default [] (doc_keymaps doc)).

(** A document that names a palette it does not define, for a server
    with certificate checks switched off. *)
Definition a_document_with_unknown_palette : WrittenDocument :=
  a_document_of [a_tls_server (Some false) None] None (Some "solarized")
    None None None None None None.

(** A document with two servers, lists and hidden authors. *)
Definition a_document_for_two : WrittenDocument :=
  {| doc_servers := [a_server_named "prod"; a_server_named "test"];
     doc_palettes := Some [an_entry "mine" "footer" ["yellow"]];
     doc_palette := Some "mine";
     doc_keymaps := None; doc_keymap := None;
     doc_commentlinks := Some [a_rule "bug (\d+)"];
     doc_dashboards := Some three_dashboards;
     doc_reviewkeys := Some three_reviewkeys;
     doc_change_list_query := Some "status:merged"; doc_diff_view := None;
     doc_hide_comments := Some ["^jenkins$"; "bot"];
     doc_thread_changes := Some false;
     doc_display_times_in_utc := None; doc_handle_mouse := None;
     doc_breadcrumbs := None; doc_close_change_on_review := None;
     doc_change_list_options :=
       Some {| clo_sort_by := None; clo_reverse := Some true |};
     doc_expire_age := None;
     doc_size_column := None |}.

(** Collaborators for which the pattern [(] does not compile. *)
Definition recording_strictly : Collaborators :=
  {| Palette := Made; Palette_new := New; Palette_update := Updated;
     LIGHT_PALETTE := @LIGHT_PALETTE recording;
     KeyMap := Made; KeyMap_new := New; KeyMap_update := Updated;
     VI_KEYMAP := @VI_KEYMAP recording;
     CommentLink := CommentLinkRule; CommentLink_new := id;
     Pattern := string;
     re_compile := fun s => if String.eqb s "(" then None else Some s;
     expanduser := expanduser_home;
     urlparse_netloc := netloc |}.

(** An ordered mapping over [entries] is well keyed: no key comes
    twice, looking a key up finds the item of that key, every item is
    an entry of the list under that entry's own key, every entry's key
    is found, and there are no more items than entries. *)
Definition is_well_keyed {V} (key : V -> string) (entries : list V)
    (od : list (string * V)) : Prop :=
  NoDup (od_keys od)
  /\ (forall k v, od_get k od = Some v <-> (k, v) ∈ od)
  /\ (forall k v, (k, v) ∈ od -> v ∈ entries /\ key v = k)
  /\ (forall e, e ∈ entries -> is_Some (od_get (key e) od))
  /\ (length od <= length entries)%nat.

(** The ways to sort a list of changes. *)
Definition sort_keys : list string :=
  ["number"; "updated"; "last-seen"; "project"].

Definition is_sort_key (v : pyval) : Prop :=
  exists s, s ∈ sort_keys /\ v = PStr s.

(* ===================================================================== *)
(** * Properties *)
(* ===================================================================== *)

(** ** Strings *)

Lemma list_ascii_of_string_app (s t : string) :
  list_ascii_of_string (s +:+ t)
  = list_ascii_of_string s ++ list_ascii_of_string t.
Proof. induction s as [|c s IH]; simpl; [done | by rewrite IH]. Qed.

Lemma endswith_app_slash (s : string) : endswith (s +:+ "/") "/" = true.
Proof.
  induction s as [|c s IH]; [done |].
  change (endswith (String c s +:+ "/") "/")
    with ((String c (s +:+ "/") =? "/")%string || endswith (s +:+ "/") "/").
  rewrite IH. apply orb_true_r.
Qed.

Lemma endswith_slash_inv (s : string) :
  endswith s "/" = true -> exists s', s = s' +:+ "/".
Proof.
  induction s as [|c s IH]; [discriminate |].
  cbn [endswith]. intros [Heq | Hrest]%orb_true_iff.
  - apply String.eqb_eq in Heq. exists EmptyString. by rewrite Heq.
  - destruct (IH Hrest) as [s' ->]. by exists (String c s').
Qed.

Lemma trailing_slashes_app_slash (s : string) :
  trailing_slashes (s +:+ "/") = S (trailing_slashes s).
Proof.
  unfold trailing_slashes.
  rewrite list_ascii_of_string_app, rev_app_distr. reflexivity.
Qed.

Lemma trailing_slashes_0 (s : string) :
  trailing_slashes s = O <-> endswith s "/" = false.
Proof.
  split.
  - intros Hz. destruct (endswith s "/") eqn:He; [|done].
    destruct (endswith_slash_inv _ He) as [s' ->].
    by rewrite trailing_slashes_app_slash in Hz.
  - intros He. unfold trailing_slashes.
    destruct (rev (list_ascii_of_string s)) as [|c l] eqn:Hr; [done |].
    simpl. destruct (is_slash c) eqn:Hc; [|done].
    apply Ascii.eqb_eq in Hc. subst c.
    assert (s = string_of_list_ascii (rev l) +:+ "/") as Hs.
    { rewrite <- (string_of_list_ascii_of_string s).
      rewrite <- (rev_involutive (list_ascii_of_string s)), Hr. simpl.
      generalize (rev l). intros l'. induction l' as [|a l' IH]; simpl; [done|].
      by rewrite IH. }
    rewrite Hs, endswith_app_slash in He. discriminate.
Qed.

(** The string [with_trailing_slash] returns: the input when it ends
    with a slash, the input and a slash otherwise; either way as many
    slashes at the end as the input had, and at least one. *)
Lemma with_trailing_slash_spec (u : string) :
  endswith (with_trailing_slash u) "/" = true
  /\ with_trailing_slash u = (if endswith u "/" then u else u +:+ "/")
  /\ trailing_slashes (with_trailing_slash u)
     = Nat.max 1 (trailing_slashes u).
Proof.
  unfold with_trailing_slash.
  destruct (endswith u "/") eqn:He; simpl.
  - repeat split; [done |].
    destruct (trailing_slashes u) eqn:Ht; [|done].
    apply trailing_slashes_0 in Ht. congruence.
  - split; [apply endswith_app_slash |]. split; [done |].
    rewrite trailing_slashes_app_slash.
    apply trailing_slashes_0 in He. by rewrite He.
Qed.

(** ** The monad *)

Lemma bind_Ok {A B} (m : M A) (k : A -> M B) st b st' :
  (m ≫= k) st = (Ok b, st') ->
  exists a st1, m st = (Ok a, st1) /\ k a st1 = (Ok b, st').
Proof.
  unfold mbind, M_bind. destruct (m st) as [[a | code | e] st1]; intros Hk;
    [by exists a, st1 | discriminate | discriminate].
Qed.

Lemma bind_run {A B} (m : M A) (k : A -> M B) st a st1 :
  m st = (Ok a, st1) -> (m ≫= k) st = k a st1.
Proof. intros Hm. unfold mbind, M_bind. by rewrite Hm. Qed.

Lemma quiet_bind {A B} (m : M A) (k : A -> M B) :
  quiet m -> (forall a, quiet (k a)) -> quiet (m ≫= k).
Proof.
  intros Hm Hk st. unfold mbind, M_bind. specialize (Hm st).
  destruct (m st) as [[a | code | e] st1]; simpl in *; [|done|done].
  by rewrite Hk.
Qed.

Lemma keeps_store_bind {A B} (m : M A) (k : A -> M B) :
  keeps_store m -> (forall a, keeps_store (k a)) -> keeps_store (m ≫= k).
Proof.
  intros Hm Hk st. unfold mbind, M_bind. specialize (Hm st).
  destruct (m st) as [[a | code | e] st1]; simpl in *; [|done|done].
  by rewrite Hk.
Qed.

Lemma quiet_ret {A} (a : A) : quiet (mret a).
Proof. done. Qed.

Lemma quiet_raise {A} e : quiet (@raise A e).
Proof. done. Qed.

Lemma quiet_setenv k v : quiet (setenv k v).
Proof. done. Qed.

Lemma quiet_getitem {T} (c : gmap string T) n : quiet (getitem c n).
Proof. unfold getitem. by destruct (c !! n). Qed.

Lemma quiet_new_dict d : quiet (new_dict d).
Proof. done. Qed.

Lemma quiet_yaml_safe_load written : quiet (yaml_safe_load written).
Proof.
  unfold yaml_safe_load. destruct (doc_size_column written); [|done].
  apply quiet_bind; [done | intros; done].
Qed.

Lemma yaml_safe_load_environ written st :
  environ (yaml_safe_load written st).2 = environ st.
Proof. unfold yaml_safe_load. by destruct (doc_size_column written). Qed.

Lemma yaml_safe_load_Ok written st :
  exists doc st0,
    yaml_safe_load written st = (Ok doc, st0)
    /\ events st0 = events st
    /\ environ st0 = environ st
    /\ doc_servers doc = doc_servers written.
Proof.
  unfold yaml_safe_load. destruct (doc_size_column written) as [d|].
  - by eexists _, _.
  - by eexists _, _.
Qed.

(** What [yaml.safe_load] returns and leaves behind. *)
Lemma yaml_safe_load_run (written : WrittenDocument) st :
  match doc_size_column written with
  | Some d =>
      let l := fresh (dom (store st)) in
      store st !! l = None
      /\ yaml_safe_load written st
         = (Ok (with_size_column written (Some l)),
            set_store st (<[l := d]> (store st)))
  | None => yaml_safe_load written st = (Ok (with_size_column written None), st)
  end.
Proof.
  unfold yaml_safe_load. destruct (doc_size_column written) as [d|]; [|done].
  cbv zeta. split; [apply not_elem_of_dom, is_fresh | done].
Qed.

Lemma quiet_dict_get l k d : quiet (dict_get l k d).
Proof. intros st. unfold dict_get. by destruct (store st !! l). Qed.

Lemma quiet_dict_getitem l k : quiet (dict_getitem l k).
Proof.
  intros st. unfold dict_getitem.
  destruct (store st !! l) as [d|]; [|done]. by destruct (d !! k).
Qed.

Lemma quiet_dict_setitem l k v : quiet (dict_setitem l k v).
Proof. intros st. unfold dict_setitem. by destruct (store st !! l). Qed.

Lemma keeps_store_ret {A} (a : A) : keeps_store (mret a).
Proof. done. Qed.

Lemma keeps_store_raise {A} e : keeps_store (@raise A e).
Proof. done. Qed.

Lemma keeps_store_sys_exit {A} c : keeps_store (@sys_exit A c).
Proof. done. Qed.

Lemma keeps_store_print s : keeps_store (print s).
Proof. done. Qed.

Lemma keeps_store_setenv k v : keeps_store (setenv k v).
Proof. done. Qed.

Lemma keeps_store_getitem {T} (c : gmap string T) n : keeps_store (getitem c n).
Proof. unfold getitem. by destruct (c !! n). Qed.

Lemma keeps_store_resolve_password host p u n s :
  keeps_store (resolve_password host p u n s).
Proof.
  unfold resolve_password. destruct (srv_password s); [|done].
  apply keeps_store_bind; [done |]. intros m.
  destruct (negb _); [|done].
  apply keeps_store_bind; [done | intros; done].
Qed.

Section StepFacts.
Context `{Collaborators}.

Lemma expanduser_bind {B} (s : string) (k : string -> M B) st :
  (os_path_expanduser s ≫= k) st = k (expanduser (home st) s) st.
Proof. reflexivity. Qed.

Lemma quiet_os_path_expanduser s : quiet (os_path_expanduser s).
Proof. done. Qed.

Lemma quiet_urlparse u : quiet (urlparse u).
Proof. unfold urlparse. by destruct (urlparse_netloc u). Qed.

Lemma keeps_store_urlparse u : keeps_store (urlparse u).
Proof. unfold urlparse. by destruct (urlparse_netloc u). Qed.

Lemma urlparse_Ok u h st st1 :
  urlparse u st = (Ok h, st1) -> urlparse_netloc u = Some h /\ st1 = st.
Proof.
  unfold urlparse. destruct (urlparse_netloc u); [|discriminate].
  by intros [= -> ->].
Qed.

Lemma urlparse_run u h st :
  urlparse_netloc u = Some h -> urlparse u st = (Ok h, st).
Proof. intros Hu. unfold urlparse. by rewrite Hu. Qed.

Lemma quiet_resolve_hide_comments authors :
  quiet (resolve_hide_comments authors).
Proof.
  induction authors as [|a rest IH]; simpl; [done |].
  destruct (re_compile a); [|done].
  apply quiet_bind; [done | intros; done].
Qed.

Lemma keeps_store_resolve_hide_comments authors :
  keeps_store (resolve_hide_comments authors).
Proof.
  induction authors as [|a rest IH]; simpl; [done |].
  destruct (re_compile a); [|done].
  apply keeps_store_bind; [done | intros; done].
Qed.
End StepFacts.

Lemma quiet_resolve_size_column doc : quiet (resolve_size_column doc).
Proof.
  unfold resolve_size_column.
  apply quiet_bind; [destruct (doc_size_column doc); done |]. intros l.
  apply quiet_bind; [apply quiet_dict_get |]. intros ty.
  apply quiet_bind; [apply quiet_dict_setitem |]. intros _.
  apply quiet_bind; [apply quiet_dict_getitem |]. intros ty'.
  apply quiet_bind; [| intros; done].
  destruct (py_eq_str ty' "graph");
    (apply quiet_bind; [apply quiet_dict_get | intros; apply quiet_dict_setitem]).
Qed.

(** ** What a run of [Config.__init__] that returns has done *)

Lemma yaml_safe_load_fields written st doc st0 :
  yaml_safe_load written st = (Ok doc, st0) ->
  exists size_column : option loc, doc = with_size_column written size_column.
Proof.
  intros Hload. pose proof (yaml_safe_load_run written st) as Hl.
  destruct (doc_size_column written).
  - destruct Hl as [_ Hl]. rewrite Hload in Hl. injection Hl as -> _.
    by eexists.
  - rewrite Hload in Hl. injection Hl as -> _. by eexists.
Qed.

Lemma resolve_password_Ok host file u n srv st pw st1 :
  resolve_password host file u n srv st = (Ok pw, st1) ->
  store st1 = store st
  /\ environ st1 = environ st
  /\ events st1 = events st ++ password_events file (password_prompt u n) srv
  /\ match srv_password srv with
     | Some stored => pw = stored /\ Z.land (host_st_mode host file) 511 = 384
     | None => pw = host_typed host (password_prompt u n)
     end.
Proof.
  unfold resolve_password, password_events.
  destruct (srv_password srv) as [stored|].
  - unfold mbind, M_bind, os_stat_st_mode, print, emit, sys_exit, mret, M_ret.
    destruct (Z.land (host_st_mode host file) 511 =? 384) eqn:Hmode; simpl;
      [|discriminate].
    intros [= <- <-]. apply Z.eqb_eq in Hmode. by simpl.
  - unfold getpass. intros [= <- <-]. by simpl.
Qed.

Lemma resolve_hide_comments_pure `{Collaborators} authors :
  exists r, forall st, resolve_hide_comments authors st = (r, st).
Proof.
  induction authors as [|a rest [r IH]]; simpl.
  - by exists (Ok []).
  - destruct (re_compile a) as [pattern|]; [|by exists (Raised (ReError a))].
    destruct r as [rs | code | e].
    + exists (Ok (pattern :: rs)). intros st.
      unfold mbind, M_bind. by rewrite IH.
    + exists (SysExit code). intros st. unfold mbind, M_bind. by rewrite IH.
    + exists (Raised e). intros st. unfold mbind, M_bind. by rewrite IH.
Qed.

Lemma resolve_hide_comments_state `{Collaborators} authors st :
  (resolve_hide_comments authors st).2 = st.
Proof.
  destruct (resolve_hide_comments_pure authors) as [r Hr]. by rewrite Hr.
Qed.

Lemma tls_environ_home (expand : string -> string) (srv : ServerRecord)
    (env : gmap string string) :
  tls_environ expand srv env !! "HOME" = env !! "HOME".
Proof.
  unfold tls_environ.
  destruct (default true (srv_verify_ssl srv)), (srv_ssl_ca_path srv);
    by rewrite ?lookup_insert_ne by done.
Qed.

(** Lines 178-188 as they stand in [Config_init]: [HOME] is none of
    the variables that are set, so the path of the certificates is
    expanded with the [HOME] the step began with. *)
Lemma tls_steps_run `{Collaborators} (srv : ServerRecord) {A}
    (k : option string -> M A) st :
  ((if negb (default true (srv_verify_ssl srv))
    then setenv "GIT_SSL_NO_VERIFY" "true" else mret tt);;
   ssl_ca_path ← match srv_ssl_ca_path srv with
                 | Some ca =>
                     ca ← os_path_expanduser ca;
                     setenv "REQUESTS_CA_BUNDLE" ca;;
                     setenv "GIT_SSL_CAINFO" ca;;
                     mret (Some ca)
                 | None => mret None
                 end;
   k ssl_ca_path) st
  = k (expanduser (home st) <$> srv_ssl_ca_path srv)
      {| store := store st;
         environ := tls_environ (expanduser (home st)) srv (environ st);
         events := events st |}.
Proof.
  unfold tls_environ, mbind, M_bind, setenv, mret, M_ret, os_path_expanduser,
    home.
  destruct st as [objects env evs].
  destruct (default true (srv_verify_ssl srv)), (srv_ssl_ca_path srv);
    cbn [negb fmap option_fmap option_map store environ events];
    by rewrite ?lookup_insert_ne by done.
Qed.

Section Pipeline.
Context `{Collaborators}.

Lemma Config_init_Ok host server_name palette_name keymap_name p st cfg st' :
  Config_init host server_name palette_name keymap_name p st = (Ok cfg, st') ->
  exists doc srv st1,
    (exists written st0,
        host_file host (expanduser (home st) p) = Valid written
        /\ yaml_safe_load written st = (Ok doc, st0)
        /\ store st1 = store st0
        /\ exists st2,
             resolve_password host (expanduser (home st) p)
               (with_trailing_slash (srv_url srv)) (srv_username srv) srv st0
             = (Ok (password cfg), st2))
    /\ getServer doc server_name = Some srv
    /\ path cfg = expanduser (home st) p
    /\ config cfg = doc
    /\ server cfg = srv
    /\ url cfg = with_trailing_slash (srv_url srv)
    /\ git_url cfg
       = with_trailing_slash (default (url cfg +:+ "p/") (srv_git_url srv))
    /\ palettes cfg = resolve_palettes (default [] (doc_palettes doc))
    /\ palettes cfg !! default palette_name (doc_palette doc)
       = Some (palette cfg)
    /\ keymaps cfg = resolve_keymaps (default [] (doc_keymaps doc))
    /\ keymaps cfg !! default keymap_name (doc_keymap doc)
       = Some (keymap cfg)
    /\ commentlinks cfg
       = resolve_commentlinks (default [] (doc_commentlinks doc))
    /\ dashboards cfg = keyed dash_key (default [] (doc_dashboards doc))
    /\ reviewkeys cfg = keyed rk_key (default [] (doc_reviewkeys doc))
    /\ resolve_size_column doc st1 = (Ok (size_column cfg), st').
Proof.
  unfold Config_init. intros Hrun. rewrite expanduser_bind in Hrun.
  destruct (host_file host (expanduser (home st) p)) as [| |written] eqn:Hfile.
  { apply bind_Ok in Hrun as (? & ? & _ & Hexit). discriminate. }
  { discriminate. }
  apply bind_Ok in Hrun as (doc & s0 & Hload & Hrun).
  apply bind_Ok in Hrun as (srv & s1 & Hsel & Hrun).
  destruct (getServer doc server_name) as [srv'|] eqn:Hget; [|discriminate].
  injection Hsel as -> <-. cbv beta zeta in Hrun.
  apply bind_Ok in Hrun as (h & s1 & Hparse & Hrun).
  apply urlparse_Ok in Hparse as [Hparse ->].
  apply bind_Ok in Hrun as (pw & s2 & Hpw & Hrun).
  pose proof (keeps_store_resolve_password host (expanduser (home st) p)
                (with_trailing_slash (srv_url srv)) (srv_username srv) srv s0)
    as E2. rewrite Hpw in E2. simpl in E2.
  rewrite tls_steps_run in Hrun. rewrite !expanduser_bind in Hrun.
  apply bind_Ok in Hrun as (pal & s5 & Hpal & Hrun).
  unfold getitem in Hpal.
  destruct (resolve_palettes _ !! _) as [pal'|] eqn:Hpal'; [|discriminate].
  injection Hpal as -> <-.
  apply bind_Ok in Hrun as (km & s6 & Hkm & Hrun).
  unfold getitem in Hkm.
  destruct (resolve_keymaps _ !! _) as [km'|] eqn:Hkm'; [|discriminate].
  injection Hkm as -> <-.
  apply bind_Ok in Hrun as (hc & s7 & Hhc & Hrun).
  match type of Hhc with
  | resolve_hide_comments ?a ?s = _ =>
      pose proof (keeps_store_resolve_hide_comments a s) as E7
  end.
  rewrite Hhc in E7. simpl in E7.
  apply bind_Ok in Hrun as (sc & s8 & Hsc & Hrun).
  injection Hrun as <- <-.
  exists doc, srv, s7. cbn [path config server url git_url palettes
    palette keymaps keymap commentlinks dashboards reviewkeys size_column
    password].
  split; [| repeat split; done].
  exists written, s0. repeat split; [done | congruence | by exists s2].
Qed.

(** Where the document and the server record of a configuration come
    from: the file at the path, and [getServer] on it. *)
Lemma Config_init_of_file
    host server_name palette_name keymap_name p st cfg st' written :
  Config_init host server_name palette_name keymap_name p st = (Ok cfg, st') ->
  host_file host (expanduser (home st) p) = Valid written ->
  (exists size_column : option loc,
      config cfg = with_size_column written size_column)
  /\ getServer written server_name = Some (server cfg).
Proof.
  intros Hrun Hfile.
  destruct (Config_init_Ok _ _ _ _ _ _ _ _ Hrun)
    as (doc & srv & st1 & (written' & st0 & Hfile' & Hload & _) & Hget & _
        & Hdoc & Hsrv & _).
  rewrite Hfile in Hfile'. injection Hfile' as <-.
  destruct (yaml_safe_load_fields _ _ _ _ Hload) as [sc Hsc].
  split; [exists sc; congruence |].
  rewrite Hsrv, <- Hget, Hsc. reflexivity.
Qed.

(** The same, for a server record that [getServer] is known to
    select. *)
Lemma Config_init_of_server
    host server_name palette_name keymap_name p st cfg st' written srv :
  Config_init host server_name palette_name keymap_name p st = (Ok cfg, st') ->
  host_file host (expanduser (home st) p) = Valid written ->
  getServer written server_name = Some srv ->
  server cfg = srv.
Proof.
  intros Hrun Hfile Hget.
  destruct (Config_init_of_file _ _ _ _ _ _ _ _ _ Hrun Hfile) as [_ Hsel].
  congruence.
Qed.

End Pipeline.

(** ** Server selection *)

Lemma getServer_loop_named (servers : list ServerRecord) (n : string) :
  match getServer_loop servers (Some n) with
  | Some s => exists before after,
      servers = before ++ s :: after /\ srv_name s = n
      /\ Forall (fun s' => srv_name s' <> n) before
  | None => Forall (fun s' => srv_name s' <> n) servers
  end.
Proof.
  induction servers as [|s rest IH]; simpl; [by constructor |].
  destruct (String.eqb n (srv_name s)) eqn:E.
  - apply String.eqb_eq in E. exists [], rest. by repeat split.
  - apply String.eqb_neq in E.
    destruct (getServer_loop rest (Some n)) as [s0|].
    + destruct IH as (before & after & -> & Hn & Hb).
      exists (s :: before), after. repeat split; [done |].
      constructor; [congruence | done].
    + constructor; [congruence | done].
Qed.

(** C9: for a document whose [servers] list is not empty, [getServer]
    with no name returns the first server record of the document; with
    a name it returns the first record of that name, that is, a record
    of that name before which no record has it; and it returns [None]
    exactly when no record has the requested name. *)
Theorem getServer_selects_first_match {R} (doc : DocumentOf R) :
  doc_servers doc <> [] ->
  (exists first rest,
      doc_servers doc = first :: rest /\ getServer doc None = Some first)
  /\ (forall n s,
        getServer doc (Some n) = Some s <->
        exists before after,
          doc_servers doc = before ++ s :: after /\ srv_name s = n
          /\ Forall (fun s' => srv_name s' <> n) before)
  /\ (forall n,
        getServer doc (Some n) = None <->
        Forall (fun s => srv_name s <> n) (doc_servers doc)).
Proof.
  intros Hne. unfold getServer. split; [|split].
  - destruct (doc_servers doc) as [|first rest]; [done |]. by exists first, rest.
  - intros n s. pose proof (getServer_loop_named (doc_servers doc) n) as Hl.
    split.
    + intros Hs. by rewrite Hs in Hl.
    + intros (before & after & Hd & Hn & Hb).
      destruct (getServer_loop (doc_servers doc) (Some n)) as [s0|].
      * destruct Hl as (before0 & after0 & Hd0 & Hn0 & Hb0).
        rewrite Hd in Hd0. f_equal.
        clear - Hd0 Hn Hb Hn0 Hb0.
        revert before0 Hd0 Hb0.
        induction before as [|b before IH]; intros [|b0 before0] Hd0 Hb0;
          simplify_eq/=.
        -- done.
        -- by apply Forall_cons_1 in Hb0 as [? _].
        -- by apply Forall_cons_1 in Hb as [? _].
        -- apply Forall_cons_1 in Hb as [_ Hb].
           apply Forall_cons_1 in Hb0 as [_ Hb0]. by eapply IH.
      * rewrite Hd in Hl. apply Forall_app in Hl as [_ Hl].
        by apply Forall_cons_1 in Hl as [? _].
  - intros n. pose proof (getServer_loop_named (doc_servers doc) n) as Hl.
    split.
    + intros Hs. by rewrite Hs in Hl.
    + intros Hall.
      destruct (getServer_loop (doc_servers doc) (Some n)) as [s0|]; [|done].
      destruct Hl as (before & after & Hd & Hn & _).
      rewrite Hd in Hall. apply Forall_app in Hall as [_ Hall].
      by apply Forall_cons_1 in Hall as [? _].
Qed.

Lemma getServer_selects_first_match_witness :
  let doc := a_document [a_server "http://a/" None None;
                         a_server "http://b/" None None] in
  (exists first rest,
      doc_servers doc = first :: rest /\ getServer doc None = Some first)
  /\ (forall n s,
        getServer doc (Some n) = Some s <->
        exists before after,
          doc_servers doc = before ++ s :: after /\ srv_name s = n
          /\ Forall (fun s' => srv_name s' <> n) before)
  /\ (forall n,
        getServer doc (Some n) = None <->
        Forall (fun s => srv_name s <> n) (doc_servers doc)).
Proof.
  apply (getServer_selects_first_match
           (a_document [a_server "http://a/" None None;
                        a_server "http://b/" None None])).
  simpl. discriminate.
Defined.

(** ** The threshold schema *)

(** C3, as the code has it: the schema [thresholds] accepts a value
    exactly when it is a list, of any length, each of whose elements is
    an instance of [int]. *)
Theorem thresholds_accepts_lists_of_int (v : pyval) :
  Voluptuous.validate ConfigSchema.thresholds v = true <->
  exists l, v = PList l
            /\ Forall (fun x => Voluptuous.isinstance x Voluptuous.TInt = true) l.
Proof.
  unfold ConfigSchema.thresholds.
  destruct v as [| b | n | s | l]; simpl;
    try (split; [discriminate | by intros (l' & ? & _)]).
  split.
  - intros Hall. exists l. split; [done |].
    apply Forall_forall. intros x Hx%list_elem_of_In.
    rewrite forallb_forall in Hall. specialize (Hall x Hx).
    by destruct x.
  - intros (l' & [= <-] & Hall). apply forallb_forall.
    intros x Hx%list_elem_of_In. rewrite Forall_forall in Hall.
    specialize (Hall x Hx). by destruct x.
Qed.

(** C3, counterexample: a list of four integers, and the empty list,
    pass the schema [thresholds]. *)
Lemma thresholds_accepts_four_integers :
  Voluptuous.validate ConfigSchema.thresholds
    (PList (map PInt [1; 10; 100; 1000])) = true
  /\ length (map PInt [1; 10; 100; 1000]) = 4%nat
  /\ Voluptuous.validate ConfigSchema.thresholds (PList []) = true.
Proof. by vm_compute. Qed.

(** ** The URLs *)

Lemma trailing_slashes_app_p_slash (u : string) :
  trailing_slashes (u +:+ "p/") = 1%nat.
Proof.
  unfold trailing_slashes.
  rewrite list_ascii_of_string_app, rev_app_distr. reflexivity.
Qed.

Section Urls.
Context `{Collaborators}.

(** C2, as the code has it: the resolved [url] is the [url] of the
    server record that the file gives for the requested name, when that
    ends with a slash, and that with one slash added otherwise, and the
    resolved [git_url] is made the same way from [git-url], or from the
    resolved [url] and [p/] when there is no [git-url].  Each ends with
    a slash, and with as many slashes as its input ended with when that
    was more than one. *)
Theorem urls_end_with_slash
    host server_name palette_name keymap_name p st cfg st' written srv :
  Config_init host server_name palette_name keymap_name p st = (Ok cfg, st') ->
  host_file host (expanduser (home st) p) = Valid written ->
  getServer written server_name = Some srv ->
  let git := default (url cfg +:+ "p/") (srv_git_url srv) in
  endswith (url cfg) "/" = true
  /\ url cfg = (if endswith (srv_url srv) "/" then srv_url srv
                else srv_url srv +:+ "/")
  /\ trailing_slashes (url cfg) = Nat.max 1 (trailing_slashes (srv_url srv))
  /\ endswith (git_url cfg) "/" = true
  /\ git_url cfg = (if endswith git "/" then git else git +:+ "/")
  /\ trailing_slashes (git_url cfg) = Nat.max 1 (trailing_slashes git)
  /\ (srv_git_url srv = None -> trailing_slashes (git_url cfg) = 1%nat).
Proof.
  intros Hrun Hfile Hget git.
  pose proof (Config_init_of_server _ _ _ _ _ _ _ _ _ _ Hrun Hfile Hget) as Hs.
  destruct (Config_init_Ok _ _ _ _ _ _ _ _ Hrun)
    as (doc & srv' & st1 & _ & _ & _ & _ & Hsrv & Hurl & Hgit & _).
  assert (srv' = srv) as -> by congruence. subst git.
  rewrite Hurl at 1 2 3.
  destruct (with_trailing_slash_spec (srv_url srv)) as (U1 & U2 & U3).
  rewrite Hgit at 1 2 3.
  destruct (with_trailing_slash_spec
              (default (url cfg +:+ "p/") (srv_git_url srv))) as (G1 & G2 & G3).
  repeat split; try done.
  intros Hnone. rewrite Hgit, G3, Hnone. simpl.
  by rewrite trailing_slashes_app_p_slash.
Qed.

End Urls.

(** C2, counterexample: a [url] and a [git-url] that end with two and
    three slashes are resolved unchanged. *)
Lemma urls_keep_their_slashes :
  match Config_init (H := recording)
          (a_host (a_document [a_server "http://h//" None (Some "git://h///")]) 0)
          None "default" "default" DEFAULT_CONFIG_PATH (a_state ∅)
  with
  | (Ok cfg, _) =>
      url cfg = "http://h//"
      /\ trailing_slashes (url cfg) = 2%nat
      /\ git_url cfg = "git://h///"
      /\ trailing_slashes (git_url cfg) = 3%nat
  | _ => False
  end.
Proof. by vm_compute. Qed.

(** Runs the call of the goal and hands the equation of a run that
    returned to the tactic [use]. *)
Ltac by_running use :=
  lazymatch goal with
  | |- match ?run with _ => _ end =>
      let Hret := fresh "Hret" in
      let E := fresh "E" in
      assert (returns run = true) as Hret by (vm_compute; reflexivity);
      destruct run as [[? | ? | ?] ?] eqn:E;
      [ use E | discriminate Hret | discriminate Hret ]
  end.

Lemma urls_end_with_slash_witness :
  match Config_init (H := recording)
          (a_host (a_document [a_server "http://h" None None]) 0)
          None "default" "default" DEFAULT_CONFIG_PATH (a_state ∅)
  with
  | (Ok cfg, _) =>
      let srv := a_server "http://h" None None in
      let git := default (url cfg +:+ "p/") (srv_git_url srv) in
      endswith (url cfg) "/" = true
      /\ url cfg = (if endswith (srv_url srv) "/" then srv_url srv
                    else srv_url srv +:+ "/")
      /\ trailing_slashes (url cfg) = Nat.max 1 (trailing_slashes (srv_url srv))
      /\ endswith (git_url cfg) "/" = true
      /\ git_url cfg = (if endswith git "/" then git else git +:+ "/")
      /\ trailing_slashes (git_url cfg) = Nat.max 1 (trailing_slashes git)
      /\ (srv_git_url srv = None -> trailing_slashes (git_url cfg) = 1%nat)
  | _ => False
  end.
Proof.
  by_running ltac:(fun E =>
    exact (urls_end_with_slash (H := recording) _ _ _ _ _ _ _ _
             (a_document [a_server "http://h" None None])
             (a_server "http://h" None None) E eq_refl eq_refl)).
Defined.

(** ** Ordered mappings *)

Lemma od_keys_setitem {V} (k : string) (v : V) (od : list (string * V)) :
  od_keys (od_setitem k v od)
  = if decide (k ∈ od_keys od) then od_keys od else od_keys od ++ [k].
Proof.
  unfold od_keys. induction od as [|[k' v'] od IH]; simpl.
  - done.
  - destruct (String.eqb k' k) eqn:E.
    + apply String.eqb_eq in E as ->. simpl.
      destruct (decide (k ∈ k :: map fst od)) as [Hin | Hin]; [done |].
      destruct Hin. apply list_elem_of_here.
    + apply String.eqb_neq in E. simpl. rewrite IH.
      destruct (decide (k ∈ map fst od)) as [Hin | Hin];
        destruct (decide (k ∈ k' :: map fst od)) as [Hin' | Hin']; try done.
      * destruct Hin'. by apply list_elem_of_further.
      * apply elem_of_cons in Hin' as [-> | ?]; done.
Qed.

Lemma od_get_setitem_eq {V} (k : string) (v : V) (od : list (string * V)) :
  od_get k (od_setitem k v od) = Some v.
Proof.
  induction od as [|[k' v'] od IH]; simpl.
  - by rewrite String.eqb_refl.
  - destruct (String.eqb k' k) eqn:E; simpl.
    + by rewrite String.eqb_refl.
    + by rewrite E.
Qed.

Lemma od_get_setitem_ne {V} (k k0 : string) (v : V) (od : list (string * V)) :
  k0 <> k -> od_get k0 (od_setitem k v od) = od_get k0 od.
Proof.
  intros Hne. induction od as [|[k' v'] od IH]; simpl.
  - apply String.eqb_neq in Hne. by rewrite String.eqb_sym, Hne.
  - destruct (String.eqb k' k) eqn:E; simpl.
    + apply String.eqb_eq in E as ->.
      apply String.eqb_neq in Hne. by rewrite String.eqb_sym, Hne.
    + by rewrite IH.
Qed.

Lemma filter_none {A} (P : A -> Prop) `{forall x, Decision (P x)} (l : list A) :
  Forall (fun x => ~ P x) l -> filter P l = [].
Proof.
  induction 1 as [|x l Hx _ IH]; [done |].
  by rewrite filter_cons_False.
Qed.

Lemma od_get_filter {V} (k : string) (v : V) (od : list (string * V)) :
  NoDup (od_keys od) -> od_get k od = Some v ->
  filter (fun item => item.1 = k) od = [(k, v)].
Proof.
  induction od as [|[k' v'] od IH]; simpl; [done |].
  intros [Hnotin Hnd]%NoDup_cons.
  destruct (String.eqb k' k) eqn:E.
  - apply String.eqb_eq in E as ->. intros [= ->].
    rewrite filter_cons_True by done. f_equal.
    apply filter_none, Forall_forall. intros [k1 v1] Hin Hk. simpl in Hk. subst k1.
    apply Hnotin. unfold od_keys. apply list_elem_of_fmap. by exists (k, v1).
  - apply String.eqb_neq in E. intros Hget.
    rewrite filter_cons_False by done. by apply IH.
Qed.

Lemma elem_of_first_seen (k : string) (l : list string) :
  k ∈ first_seen l <-> k ∈ l.
Proof.
  induction l as [|a l IH]; simpl; [done |].
  rewrite !elem_of_cons, list_elem_of_filter, IH.
  destruct (decide (k = a)) as [-> | Hne]; [by split; [left | left] |].
  split; [intros [? | [_ ?]]; [by left | by right] |].
  intros [? | ?]; [by left | by right].
Qed.

Lemma NoDup_first_seen (l : list string) : NoDup (first_seen l).
Proof.
  induction l as [|a l IH]; simpl; [constructor |].
  apply NoDup_cons. split.
  - rewrite list_elem_of_filter. by intros [? _].
  - by apply NoDup_filter.
Qed.

Lemma first_seen_snoc (l : list string) (k : string) :
  first_seen (l ++ [k])
  = if decide (k ∈ l) then first_seen l else first_seen l ++ [k].
Proof.
  induction l as [|a l IH]; simpl.
  - done.
  - rewrite IH. destruct (decide (k = a)) as [-> | Hne].
    + destruct (decide (a ∈ a :: l)) as [_ | Hin];
        [| destruct Hin; apply list_elem_of_here].
      destruct (decide (a ∈ l)); [done |].
      rewrite filter_app, filter_cons_False by naive_solver.
      by rewrite filter_nil, app_nil_r.
    + destruct (decide (k ∈ l)) as [Hin | Hin];
        destruct (decide (k ∈ a :: l)) as [Hin' | Hin']; try done.
      * destruct Hin'. by apply list_elem_of_further.
      * apply elem_of_cons in Hin' as [-> | ?]; done.
      * by rewrite filter_app, filter_cons_True, filter_nil by done.
Qed.

Lemma keyed_snoc {V} (key : V -> string) (l : list V) (d : V) :
  keyed key (l ++ [d]) = od_setitem (key d) d (keyed key l).
Proof. unfold keyed. by rewrite foldl_snoc. Qed.

Lemma keyed_keys {V} (key : V -> string) (l : list V) :
  od_keys (keyed key l) = first_seen (map key l).
Proof.
  induction l as [|d l IH] using rev_ind; [done |].
  rewrite keyed_snoc, od_keys_setitem, map_app.
  change (map key [d]) with [key d]. rewrite first_seen_snoc, IH.
  destruct (decide (key d ∈ map key l)) as [Hin | Hin];
    destruct (decide (key d ∈ first_seen (map key l))) as [Hin' | Hin'];
    try done; rewrite elem_of_first_seen in Hin'; done.
Qed.

Lemma keyed_get {V} (key : V -> string) (k : string) (l : list V) :
  od_get k (keyed key l) = latest key k l.
Proof.
  unfold latest. induction l as [|d l IH] using rev_ind; [done |].
  rewrite keyed_snoc, filter_app.
  destruct (decide (key d = k)) as [<- | Hne].
  - rewrite od_get_setitem_eq, filter_cons_True by done.
    by rewrite filter_nil, last_snoc.
  - rewrite od_get_setitem_ne by done.
    by rewrite filter_cons_False, filter_nil, app_nil_r by done.
Qed.

Lemma keyed_is_keyed_list {V} (key : V -> string) (l : list V) :
  is_keyed_list key l (keyed key l).
Proof.
  split; [apply keyed_keys |]. split; [intros k; apply keyed_get |].
  intros before e1 between e2 after -> Hk Hafter.
  apply od_get_filter.
  - rewrite keyed_keys. apply NoDup_first_seen.
  - rewrite keyed_get. unfold latest.
    rewrite filter_app, filter_cons, filter_app, filter_cons_True by done.
    assert (filter (fun d => key d = key e2) after = []) as ->.
    { by apply filter_none. }
    rewrite decide_True by done.
    rewrite app_comm_cons, app_assoc. apply last_snoc.
Qed.

(** ** Comment links, dashboards and review keys *)

Section Collections.
Context `{Collaborators}.

(** C5: the resolved comment links are the [commentlinks] of the
    document in the file, in their order, each made into a comment
    link, and then the URL rule; the URL rule is there and is the last
    one whatever the document has, also when it has no
    [commentlinks]. *)
Theorem commentlinks_end_with_url_autolink
    host server_name palette_name keymap_name p st cfg st' written :
  Config_init host server_name palette_name keymap_name p st = (Ok cfg, st') ->
  host_file host (expanduser (home st) p) = Valid written ->
  let rules := default [] (doc_commentlinks written) in
  commentlinks cfg
  = map CommentLink_new rules ++ [CommentLink_new url_autolink]
  /\ last (commentlinks cfg) = Some (CommentLink_new url_autolink)
  /\ length (commentlinks cfg) = S (length rules)
  /\ (rules = [] -> commentlinks cfg = [CommentLink_new url_autolink]).
Proof.
  intros Hrun Hfile rules.
  destruct (Config_init_of_file _ _ _ _ _ _ _ _ _ Hrun Hfile) as [[sc Hc] _].
  destruct (Config_init_Ok _ _ _ _ _ _ _ _ Hrun)
    as (doc & srv & st1 & _ & _ & _ & Hdoc & _ & _ & _ & _ & _ & _ & _
        & Hcl & _).
  rewrite <- Hdoc, Hc in Hcl. cbn [with_size_column doc_commentlinks] in Hcl.
  fold rules in Hcl. rewrite Hcl. unfold resolve_commentlinks.
  split; [done |]. split; [apply last_snoc |].
  split; [rewrite length_app, length_map; simpl; lia |]. by intros ->.
Qed.

(** C6: the resolved [dashboards] and [reviewkeys] are the keyed lists
    of the ones in the file: where two entries have the same key, the
    mapping has one item for the key, which is the later entry, and
    the keys come in the order in which each was first inserted. *)
Theorem dashboards_and_reviewkeys_are_keyed
    host server_name palette_name keymap_name p st cfg st' written :
  Config_init host server_name palette_name keymap_name p st = (Ok cfg, st') ->
  host_file host (expanduser (home st) p) = Valid written ->
  is_keyed_list dash_key (default [] (doc_dashboards written)) (dashboards cfg)
  /\ is_keyed_list rk_key (default [] (doc_reviewkeys written))
       (reviewkeys cfg).
Proof.
  intros Hrun Hfile.
  destruct (Config_init_of_file _ _ _ _ _ _ _ _ _ Hrun Hfile) as [[sc Hc] _].
  destruct (Config_init_Ok _ _ _ _ _ _ _ _ Hrun)
    as (doc & srv & st1 & _ & _ & _ & Hdoc & _ & _ & _ & _ & _ & _ & _
        & _ & Hd & Hr & _).
  rewrite <- Hdoc, Hc in Hd, Hr.
  cbn [with_size_column doc_dashboards doc_reviewkeys] in Hd, Hr.
  rewrite Hd, Hr. split; apply keyed_is_keyed_list.
Qed.

End Collections.

Example lists_of_a_document :
  match Config_init (H := recording) (a_host a_document_with_lists 0)
          None "default" "default" DEFAULT_CONFIG_PATH (a_state ∅)
  with
  | (Ok cfg, _) =>
      commentlinks cfg = [a_rule "bug (\d+)"; a_rule "change (\d+)"; url_autolink]
      /\ dashboards cfg = [("f2", a_dashboard "incoming" "f2");
                           ("f3", a_dashboard "starred" "f3")]
      /\ reviewkeys cfg = [("meta 1", a_reviewkey (-1) "meta 1");
                           ("meta 2", a_reviewkey 2 "meta 2")]
  | _ => False
  end.
Proof. by vm_compute. Qed.

Example no_commentlinks :
  match Config_init (H := recording)
          (a_host (a_document [a_server "http://h" None None]) 0)
          None "default" "default" DEFAULT_CONFIG_PATH (a_state ∅)
  with
  | (Ok cfg, _) => commentlinks cfg = [url_autolink]
  | _ => False
  end.
Proof. by vm_compute. Qed.

Lemma commentlinks_end_with_url_autolink_witness :
  match Config_init (H := recording) (a_host a_document_with_lists 0)
          None "default" "default" DEFAULT_CONFIG_PATH (a_state ∅)
  with
  | (Ok cfg, _) =>
      let rules := [a_rule "bug (\d+)"; a_rule "change (\d+)"] in
      commentlinks cfg
      = map CommentLink_new rules ++ [CommentLink_new url_autolink]
      /\ last (commentlinks cfg) = Some (CommentLink_new url_autolink)
      /\ length (commentlinks cfg) = S (length rules)
      /\ (rules = [] -> commentlinks cfg = [CommentLink_new url_autolink])
  | _ => False
  end.
Proof.
  by_running ltac:(fun E =>
    exact (commentlinks_end_with_url_autolink (H := recording)
             _ _ _ _ _ _ _ _ a_document_with_lists E eq_refl)).
Defined.

Lemma dashboards_and_reviewkeys_are_keyed_witness :
  match Config_init (H := recording) (a_host a_document_with_lists 0)
          None "default" "default" DEFAULT_CONFIG_PATH (a_state ∅)
  with
  | (Ok cfg, _) =>
      is_keyed_list dash_key three_dashboards (dashboards cfg)
      /\ is_keyed_list rk_key three_reviewkeys (reviewkeys cfg)
  | _ => False
  end.
Proof.
  by_running ltac:(fun E =>
    exact (dashboards_and_reviewkeys_are_keyed (H := recording)
             _ _ _ _ _ _ _ _ a_document_with_lists E eq_refl)).
Defined.


(** ** Palettes and key maps *)

Lemma layer_lookup {T} (new : dict -> T) (update : T -> dict -> T)
    (c : gmap string T) (p : NamedEntry) (n : string) :
  layer new update c p !! n
  = if decide (n = entry_name p)
    then Some (match c !! n with
               | Some object => update object (entry_dict p)
               | None => new (entry_dict p)
               end)
    else c !! n.
Proof.
  unfold layer. destruct (decide (n = entry_name p)) as [-> | Hne].
  - destruct (c !! entry_name p); by rewrite lookup_insert_eq.
  - destruct (c !! entry_name p); by rewrite lookup_insert_ne.
Qed.

Lemma layered_others {T} (new : dict -> T) (update : T -> dict -> T)
    (entries : list NamedEntry) (c : gmap string T) (n : string) :
  Forall (fun q => entry_name q <> n) entries ->
  foldl (layer new update) c entries !! n = c !! n.
Proof.
  intros Hall. revert c. induction Hall as [|q entries Hq _ IH]; intros c.
  - done.
  - simpl. rewrite IH, layer_lookup. by rewrite decide_False.
Qed.

Lemma layered_keeps {T} (new : dict -> T) (update : T -> dict -> T)
    (entries : list NamedEntry) (c : gmap string T) (n : string) :
  is_Some (c !! n) -> is_Some (foldl (layer new update) c entries !! n).
Proof.
  revert c. induction entries as [|q entries IH]; intros c Hc; [done |].
  simpl. apply IH. rewrite layer_lookup.
  destruct (decide (n = entry_name q)); [by eexists | done].
Qed.

Lemma layered_inserts_or_merges (builtin : gmap string dict)
    (entries : list NamedEntry) :
  inserts_or_merges (foldl (layer fields_new fields_update) builtin) entries
    (foldl (layer fields_new fields_update) builtin entries).
Proof.
  intros before p after -> present next n.
  assert (next = layer fields_new fields_update present p) as Hnext
    by (subst next present; by rewrite foldl_snoc).
  split; [|split; [|split; [|split]]].
  - intros object Hobj. rewrite Hnext, layer_lookup.
    subst n. rewrite decide_True by done. rewrite Hobj. split; [done |].
    intros field. rewrite lookup_union.
    by destruct (entry_dict p !! field), (object !! field).
  - intros Hnone. rewrite Hnext, layer_lookup.
    subst n. rewrite decide_True by done. by rewrite Hnone.
  - intros m Hm. rewrite Hnext, layer_lookup. by rewrite decide_False.
  - intros Hbefore. subst present. by apply layered_others.
  - intros Hafter. rewrite foldl_app. simpl. rewrite layered_others by done.
    by rewrite Hnext.
Qed.

Section NamedCollections.
Context (base : Collaborators).

(** C4: every entry of the file's [palettes] (of its [keymaps]) whose
    name is in the collection when the entry is reached, as a built-in
    name is, has its fields merged with the fields of the object of
    that name, the entry's fields winning; every entry whose name is
    new is put in as an object of its own; a name that no entry has is
    in the resolved collection what it was before the entries; and
    [default] is in the resolved collection whatever the entries
    are. *)
Theorem palettes_and_keymaps_insert_or_merge
    host server_name palette_name keymap_name p st cfg st' written :
  Config_init (H := with_fields base)
    host server_name palette_name keymap_name p st = (Ok cfg, st') ->
  host_file host (@expanduser (with_fields base) (home st) p)
  = Valid written ->
  let user_palettes := default [] (doc_palettes written) in
  let user_keymaps := default [] (doc_keymaps written) in
  inserts_or_merges (resolve_palettes (H := with_fields base))
    user_palettes (palettes cfg)
  /\ inserts_or_merges (resolve_keymaps (H := with_fields base))
       user_keymaps (keymaps cfg)
  /\ (forall n, Forall (fun q => entry_name q <> n) user_palettes ->
         palettes cfg !! n
         = ({[ "default" := ∅; "light" := @LIGHT_PALETTE base ]} : gmap _ _) !! n)
  /\ (forall n, Forall (fun q => entry_name q <> n) user_keymaps ->
         keymaps cfg !! n
         = ({[ "default" := ∅; "vi" := @VI_KEYMAP base ]} : gmap _ _) !! n)
  /\ resolve_palettes (H := with_fields base) [] !! "default" = Some ∅
  /\ resolve_keymaps (H := with_fields base) [] !! "default" = Some ∅
  /\ is_Some (palettes cfg !! "default")
  /\ is_Some (keymaps cfg !! "default").
Proof.
  intros Hrun Hfile user_palettes user_keymaps.
  destruct (Config_init_of_file _ _ _ _ _ _ _ _ _ Hrun Hfile) as [[sc Hc] _].
  destruct (Config_init_Ok _ _ _ _ _ _ _ _ Hrun)
    as (doc & srv & st1 & _ & _ & _ & Hdoc & _ & _ & _ & Hp & _ & Hk & _).
  rewrite <- Hdoc, Hc in Hp, Hk.
  cbn [with_size_column doc_palettes doc_keymaps] in Hp, Hk.
  fold user_palettes in Hp. fold user_keymaps in Hk. rewrite Hp, Hk.
  split; [apply layered_inserts_or_merges |].
  split; [apply layered_inserts_or_merges |].
  split; [intros n Hn; by apply layered_others |].
  split; [intros n Hn; by apply layered_others |].
  split; [done |]. split; [done |].
  split; apply layered_keeps; by eexists.
Qed.

End NamedCollections.

Example themes_of_a_document :
  match Config_init (H := with_fields recording)
          (a_host (a_document_with_themes None None) 0)
          None "default" "default" DEFAULT_CONFIG_PATH (a_state ∅)
  with
  | (Ok cfg, _) =>
      (palettes cfg !! "light" ≫= (.!! "header"))
      = Some (PList [PStr "white"; PStr "dark blue"])
      /\ (palettes cfg !! "light" ≫= (.!! "footer"))
         = Some (PList [PStr "black"])
      /\ (palettes cfg !! "light" ≫= (.!! "name")) = Some (PStr "light")
      /\ (palettes cfg !! "mine" ≫= (.!! "footer"))
         = Some (PList [PStr "yellow"])
      /\ (palettes cfg !! "mine" ≫= (.!! "header")) = None
      /\ (palettes cfg !! "default" ≫= (.!! "header")) = None
      /\ (keymaps cfg !! "vi" ≫= (.!! "quit")) = Some (PStr "q")
  | _ => False
  end.
Proof. vm_compute. repeat split; reflexivity. Qed.

Lemma palettes_and_keymaps_insert_or_merge_witness :
  match Config_init (H := with_fields recording)
          (a_host (a_document_with_themes None None) 0)
          None "default" "default" DEFAULT_CONFIG_PATH (a_state ∅)
  with
  | (Ok cfg, _) =>
      let written := a_document_with_themes None None in
      let user_palettes := default [] (doc_palettes written) in
      let user_keymaps := default [] (doc_keymaps written) in
      inserts_or_merges (resolve_palettes (H := with_fields recording))
        user_palettes (palettes cfg)
      /\ inserts_or_merges (resolve_keymaps (H := with_fields recording))
           user_keymaps (keymaps cfg)
      /\ (forall n, Forall (fun q => entry_name q <> n) user_palettes ->
             palettes cfg !! n
             = ({[ "default" := ∅; "light" := @LIGHT_PALETTE recording ]}
                : gmap _ _) !! n)
      /\ (forall n, Forall (fun q => entry_name q <> n) user_keymaps ->
             keymaps cfg !! n
             = ({[ "default" := ∅; "vi" := @VI_KEYMAP recording ]}
                : gmap _ _) !! n)
      /\ resolve_palettes (H := with_fields recording) [] !! "default" = Some ∅
      /\ resolve_keymaps (H := with_fields recording) [] !! "default" = Some ∅
      /\ is_Some (palettes cfg !! "default")
      /\ is_Some (keymaps cfg !! "default")
  | _ => False
  end.
Proof.
  by_running ltac:(fun E =>
    exact (palettes_and_keymaps_insert_or_merge recording _ _ _ _ _ _ _ _
             (a_document_with_themes None None) E eq_refl)).
Defined.

Section ActivePalette.
Context `{Collaborators}.

(** C1, as the code has it: the palettes (key maps) of the
    configuration are made from the entries in the file, and the active
    palette (key map) is the one among them that the document in the
    file names in its [palette] ([keymap]) field when it has that
    field, whatever name was passed to the constructor; the name passed
    to the constructor is used when the document has no such field. *)
Theorem document_names_the_active_palette
    host server_name palette_name keymap_name p st cfg st' written :
  Config_init host server_name palette_name keymap_name p st = (Ok cfg, st') ->
  host_file host (expanduser (home st) p) = Valid written ->
  palettes cfg = resolve_palettes (default [] (doc_palettes written))
  /\ keymaps cfg = resolve_keymaps (default [] (doc_keymaps written))
  /\ (forall n, doc_palette written = Some n ->
                palettes cfg !! n = Some (palette cfg))
  /\ (doc_palette written = None ->
      palettes cfg !! palette_name = Some (palette cfg))
  /\ (forall n, doc_keymap written = Some n ->
                keymaps cfg !! n = Some (keymap cfg))
  /\ (doc_keymap written = None ->
      keymaps cfg !! keymap_name = Some (keymap cfg)).
Proof.
  intros Hrun Hfile.
  destruct (Config_init_of_file _ _ _ _ _ _ _ _ _ Hrun Hfile) as [[sc Hc] _].
  destruct (Config_init_Ok _ _ _ _ _ _ _ _ Hrun)
    as (doc & srv & st1 & _ & _ & _ & Hdoc & _ & _ & _ & Hps & Hp & Hks & Hk
        & _).
  rewrite <- Hdoc, Hc in Hps, Hp, Hks, Hk.
  cbn [with_size_column doc_palettes doc_palette doc_keymaps doc_keymap]
    in Hps, Hp, Hks, Hk.
  split; [done |]. split; [done |].
  repeat split.
  - intros n Hn. by rewrite Hn in Hp.
  - intros Hn. by rewrite Hn in Hp.
  - intros n Hn. by rewrite Hn in Hk.
  - intros Hn. by rewrite Hn in Hk.
Qed.

End ActivePalette.

(** C1, counterexample: the document names the palette [light] and the
    key map [vi], the constructor is given [mine] and [mine], which the
    document defines; the active palette and key map are [light] and
    [vi], not the ones that are called [mine]. *)
Lemma constructor_names_do_not_override :
  match Config_init (H := recording)
          (a_host (a_document_with_themes (Some "light") (Some "vi")) 0)
          None "mine" "mine" DEFAULT_CONFIG_PATH (a_state ∅)
  with
  | (Ok cfg, _) =>
      doc_palette (config cfg) = Some "light"
      /\ palettes cfg !! "light" = Some (palette cfg)
      /\ palettes cfg !! "mine"
         = Some (New (entry_dict (an_entry "mine" "footer" ["yellow"])))
      /\ palettes cfg !! "mine" <> Some (palette cfg)
      /\ doc_keymap (config cfg) = Some "vi"
      /\ keymaps cfg !! "vi" = Some (keymap cfg)
      /\ keymaps cfg !! "mine"
         = Some (New (entry_dict (an_entry "mine" "quit" ["Q"])))
      /\ keymaps cfg !! "mine" <> Some (keymap cfg)
  | _ => False
  end.
Proof. vm_compute. repeat split; try done; discriminate. Qed.

Lemma document_names_the_active_palette_witness :
  match Config_init (H := recording)
          (a_host (a_document_with_themes (Some "light") None) 0)
          None "mine" "mine" DEFAULT_CONFIG_PATH (a_state ∅)
  with
  | (Ok cfg, _) =>
      let written := a_document_with_themes (Some "light") None in
      palettes cfg
      = resolve_palettes (H := recording) (default [] (doc_palettes written))
      /\ keymaps cfg
         = resolve_keymaps (H := recording) (default [] (doc_keymaps written))
      /\ (forall n, doc_palette written = Some n ->
                    palettes cfg !! n = Some (palette cfg))
      /\ (doc_palette written = None ->
          palettes cfg !! "mine" = Some (palette cfg))
      /\ (forall n, doc_keymap written = Some n ->
                    keymaps cfg !! n = Some (keymap cfg))
      /\ (doc_keymap written = None ->
          keymaps cfg !! "mine" = Some (keymap cfg))
  | _ => False
  end.
Proof.
  by_running ltac:(fun E =>
    exact (document_names_the_active_palette (H := recording)
             _ _ _ _ _ _ _ _ (a_document_with_themes (Some "light") None)
             E eq_refl)).
Defined.

(** ** The password *)

Ltac quiet_steps :=
  repeat first
    [ apply quiet_ret | apply quiet_raise | apply quiet_setenv
    | apply quiet_os_path_expanduser | apply quiet_urlparse
    | apply quiet_getitem | apply quiet_resolve_hide_comments
    | apply quiet_resolve_size_column
    | apply quiet_bind; [| intros ?]
    | match goal with
      | |- quiet (if ?b then _ else _) => destruct b
      | |- quiet (match ?o with Some _ => _ | None => _ end) => destruct o
      end ].

Lemma oct_reads_back (m : Z) :
  0 <= m < 512 -> octal_value (oct m) = Some m.
Proof.
  intros Hm.
  assert (forallb (fun n => match octal_value (oct n) with
                            | Some k => k =? n
                            | None => false
                            end) (seqZ 0 512) = true) as Hall
    by (vm_compute; reflexivity).
  rewrite forallb_forall in Hall. specialize (Hall m).
  destruct (octal_value (oct m)) as [k|].
  - f_equal. apply Z.eqb_eq, Hall, list_elem_of_In, elem_of_seqZ. lia.
  - discriminate Hall. apply list_elem_of_In, elem_of_seqZ. lia.
Qed.

Lemma mode_bits_bound (st_mode : Z) : 0 <= Z.land st_mode 511 < 512.
Proof.
  change 511 with (Z.ones 9). rewrite Z.land_ones by lia.
  apply Z.mod_pos_bound. lia.
Qed.

Section Password.
Context `{Collaborators}.

(** C8, as the code has it.  The URL of the selected server record is
    parsed before the password is looked at.  When it parses, the
    record holds a [password] and the mode bits of the file are not
    0600, the constructor looks at the file, prints the message with
    the path and the mode in octal, and leaves with status 1: nothing
    else is printed or asked, the environment is as it was, and no
    configuration comes back.  When it parses and the record holds no
    [password], the file is not looked at, the password is asked for
    once at the terminal, and what was typed is the password of the
    configuration.  When it does not parse, the constructor raises
    [ValueError] and has neither looked at the file, nor printed, nor
    asked. *)
Theorem stored_password_needs_mode_0600
    host server_name palette_name keymap_name p st written srv :
  host_file host (expanduser (home st) p) = Valid written ->
  getServer written server_name = Some srv ->
  let file := expanduser (home st) p in
  let mode := Z.land (host_st_mode host file) 511 in
  let url := with_trailing_slash (srv_url srv) in
  let prompt :=
    "Password for " +:+ url +:+ " (" +:+ srv_username srv +:+ "): " in
  let message :=
    "Error: Config file '" +:+ file
    +:+ "' contains a password and does not have permissions set to 0600.
Permissions are: " +:+ oct mode in
  let run := Config_init host server_name palette_name keymap_name p st in
  (is_Some (urlparse_netloc url) ->
   (forall pw, srv_password srv = Some pw -> mode <> 384 ->
      run.1 = SysExit 1
      /\ events run.2 = events st ++ [Statted file; Printed message]
      /\ octal_value (oct mode) = Some mode
      /\ environ run.2 = environ st)
   /\ (srv_password srv = None ->
       events run.2 = events st ++ [Prompted prompt]
       /\ forall cfg, run.1 = Ok cfg -> password cfg = host_typed host prompt))
  /\ (urlparse_netloc url = None ->
      run.1 = Raised ValueError
      /\ events run.2 = events st
      /\ environ run.2 = environ st).
Proof.
  intros Hfile Hget file mode url prompt message run.
  destruct (yaml_safe_load_Ok written st)
    as (doc & st0 & Hload & Hev & Henv & Hservers).
  assert (getServer doc server_name = Some srv) as Hget0
    by (unfold getServer in *; by rewrite Hservers).
  split.
  - intros [h Hparse]. split.
    + intros pw Hpw Hmode.
      assert (run = (SysExit 1,
                     {| store := store st0; environ := environ st0;
                        events := events st0
                                  ++ [Statted file; Printed message] |}))
        as ->.
      { subst run. unfold Config_init.
        rewrite expanduser_bind, Hfile, (bind_run _ _ _ _ _ Hload), Hget0.
        unfold mbind at 1, M_bind at 1, mret at 1, M_ret at 1. cbv beta zeta.
        rewrite (bind_run (urlparse _) _ st0 h st0 (urlparse_run _ _ _ Hparse)).
        unfold resolve_password. rewrite Hpw.
        unfold mbind, M_bind, mret, M_ret, os_stat_st_mode, print, emit,
          sys_exit.
        cbn [store environ events].
        fold file. fold mode. apply Z.eqb_neq in Hmode. rewrite Hmode.
        cbn [negb store environ events]. by rewrite <- app_assoc. }
      cbn [fst snd events environ]. rewrite Hev, Henv.
      split; [done |]. split; [done |].
      split; [apply oct_reads_back, mode_bits_bound | done].
    + intros Hpw. split.
      * subst run. unfold Config_init.
        rewrite expanduser_bind, Hfile, (bind_run _ _ _ _ _ Hload), Hget0.
        unfold mbind at 1, M_bind at 1, mret at 1, M_ret at 1. cbv beta zeta.
        rewrite (bind_run (urlparse _) _ st0 h st0 (urlparse_run _ _ _ Hparse)).
        unfold resolve_password. rewrite Hpw.
        unfold mbind at 1, M_bind at 1, getpass at 1.
        match goal with
        | |- events (?k ?a ?s).2 = _ =>
            assert (quiet (k a)) as Hq;
              [| rewrite Hq; cbn [events]; rewrite Hev; reflexivity]
        end.
        quiet_steps.
      * intros cfg Hcfg. subst run.
        destruct (Config_init host server_name palette_name keymap_name p st)
          as [r st'] eqn:Hrun. simpl in Hcfg. subst r.
        destruct (Config_init_Ok _ _ _ _ _ _ _ _ Hrun)
          as (doc' & srv' & st1 & (written' & st0' & Hfile' & Hload' & _ & st2
              & Hpass) & Hget' & _).
        rewrite Hfile in Hfile'. injection Hfile' as <-.
        rewrite Hload in Hload'. injection Hload' as <- <-.
        rewrite Hget0 in Hget'. injection Hget' as <-.
        unfold resolve_password in Hpass. rewrite Hpw in Hpass.
        unfold getpass in Hpass. by injection Hpass as <- _.
  - intros Hparse.
    assert (run = (Raised ValueError, st0)) as ->;
      [| cbn [fst snd]; by rewrite Hev, Henv].
    subst run. unfold Config_init.
    rewrite expanduser_bind, Hfile, (bind_run _ _ _ _ _ Hload), Hget0.
    unfold mbind at 1, M_bind at 1, mret at 1, M_ret at 1. cbv beta zeta.
    unfold mbind at 1, M_bind at 1, urlparse at 1. fold url. by rewrite Hparse.
Qed.

End Password.

Example insecure_file_exits :
  Config_init (H := recording)
    (a_host (a_document [a_server "http://h" (Some "x") None]) 420)
    None "default" "default" DEFAULT_CONFIG_PATH (a_state ∅)
  = (SysExit 1,
     {| store := ∅; environ := ∅;
        events := [Statted "/home/user/.gertty.yaml";
                   Printed "Error: Config file '/home/user/.gertty.yaml' contains a password and does not have permissions set to 0600.
Permissions are: 0o644"] |}).
Proof. by vm_compute. Qed.

Example secure_file_is_read :
  match Config_init (H := recording)
          (a_host (a_document [a_server "http://h" (Some "x") None]) 33152)
          None "default" "default" DEFAULT_CONFIG_PATH (a_state ∅)
  with
  | (Ok cfg, st') =>
      password cfg = "x" /\ events st' = [Statted "/home/user/.gertty.yaml"]
  | _ => False
  end.
Proof. by vm_compute. Qed.

(** C8, counterexample: the server's [url] opens a bracket that it does
    not close, so parsing it raises [ValueError].  With a [password]
    in the record and the file in mode 0644 the constructor does not
    end with the message about permissions: it raises, and has printed
    nothing and not looked at the file.  With no [password] it raises
    as well and has not asked for one. *)
Lemma url_is_parsed_before_the_password :
  (Config_init (H := recording)
     (a_host (a_document [a_server "http://[h" (Some "x") None]) 420)
     None "default" "default" DEFAULT_CONFIG_PATH (a_state ∅)).1
  = Raised ValueError
  /\ events (Config_init (H := recording)
               (a_host (a_document [a_server "http://[h" (Some "x") None]) 420)
               None "default" "default" DEFAULT_CONFIG_PATH (a_state ∅)).2
     = []
  /\ (Config_init (H := recording)
        (a_host (a_document [a_server "http://[h" None None]) 420)
        None "default" "default" DEFAULT_CONFIG_PATH (a_state ∅)).1
     = Raised ValueError
  /\ events (Config_init (H := recording)
               (a_host (a_document [a_server "http://[h" None None]) 420)
               None "default" "default" DEFAULT_CONFIG_PATH (a_state ∅)).2
     = [].
Proof. by vm_compute. Qed.

Lemma stored_password_needs_mode_0600_witness :
  ((Config_init (H := recording)
      (a_host (a_document [a_server "http://h" (Some "x") None]) 420)
      None "default" "default" DEFAULT_CONFIG_PATH (a_state ∅)).1
   = SysExit 1
   /\ events (Config_init (H := recording)
                (a_host (a_document [a_server "http://h" (Some "x") None]) 420)
                None "default" "default" DEFAULT_CONFIG_PATH (a_state ∅)).2
      = [Statted "/home/user/.gertty.yaml";
         Printed "Error: Config file '/home/user/.gertty.yaml' contains a password and does not have permissions set to 0600.
Permissions are: 0o644"]
   /\ octal_value "0o644" = Some 420
   /\ environ (Config_init (H := recording)
                 (a_host (a_document [a_server "http://h" (Some "x") None]) 420)
                 None "default" "default" DEFAULT_CONFIG_PATH (a_state ∅)).2
      = ∅)
  /\ events (Config_init (H := recording)
               (a_host (a_document [a_server "http://h" None None]) 420)
               None "default" "default" DEFAULT_CONFIG_PATH (a_state ∅)).2
     = [Prompted "Password for http://h/ (alice): "].
Proof.
  split.
  - refine (proj1 (proj1 (stored_password_needs_mode_0600 (H := recording)
             (a_host (a_document [a_server "http://h" (Some "x") None]) 420)
             None "default" "default" DEFAULT_CONFIG_PATH (a_state ∅)
             (a_document [a_server "http://h" (Some "x") None])
             (a_server "http://h" (Some "x") None) eq_refl eq_refl)
            (ex_intro _ "h" eq_refl))
            "x" eq_refl _).
    vm_compute. discriminate.
  - refine (proj1 (proj2 (proj1 (stored_password_needs_mode_0600 (H := recording)
             (a_host (a_document [a_server "http://h" None None]) 420)
             None "default" "default" DEFAULT_CONFIG_PATH (a_state ∅)
             (a_document [a_server "http://h" None None])
             (a_server "http://h" None None) eq_refl eq_refl)
            (ex_intro _ "h" eq_refl))
            eq_refl)).
Defined.

(** ** The size column *)

Lemma dict_get_run l k dflt st d :
  store st !! l = Some d ->
  dict_get l k dflt st = (Ok (default dflt (d !! k)), st).
Proof. intros Hl. unfold dict_get. by rewrite Hl. Qed.

Lemma dict_getitem_run l k st d v :
  store st !! l = Some d -> d !! k = Some v ->
  dict_getitem l k st = (Ok v, st).
Proof. intros Hl Hk. unfold dict_getitem. by rewrite Hl, Hk. Qed.

Lemma dict_setitem_run l k v st d :
  store st !! l = Some d ->
  dict_setitem l k v st = (Ok tt, set_store st (<[l := <[k := v]> d]> (store st))).
Proof. intros Hl. unfold dict_setitem. by rewrite Hl. Qed.

(** The steps of [resolve_size_column] after the dict is at hand. *)
Lemma size_column_steps_run (l : loc) (d : dict) st :
  store st !! l = Some d ->
  (type ← dict_get l "type" (PStr "graph");
   dict_setitem l "type" type;;
   type ← dict_getitem l "type";
   (if py_eq_str type "graph"
    then thresholds ← dict_get l "thresholds"
                        (PList (map PInt [1; 10; 100; 1000]));
         dict_setitem l "thresholds" thresholds
    else thresholds ← dict_get l "thresholds"
                        (PList (map PInt [1; 10; 100; 200; 400; 600; 800; 1000]));
         dict_setitem l "thresholds" thresholds);;
   mret l) st
  = (Ok l, set_store st (<[l := with_size_defaults d]> (store st))).
Proof.
  intros Hl.
  set (type := default (PStr "graph") (d !! "type")).
  set (d1 := <["type" := type]> d).
  set (st1 := set_store st (<[l := d1]> (store st))).
  assert (store st1 !! l = Some d1) as Hl1 by apply lookup_insert_eq.
  assert (d1 !! "type" = Some type) as Ht by apply lookup_insert_eq.
  assert (d1 !! "thresholds" = d !! "thresholds") as Hth
    by by apply lookup_insert_ne.
  rewrite (bind_run _ _ _ _ _ (dict_get_run l "type" _ st d Hl)).
  rewrite (bind_run _ _ _ _ _ (dict_setitem_run l "type" type st d Hl)).
  fold d1. fold st1.
  rewrite (bind_run _ _ _ _ _ (dict_getitem_run l "type" st1 d1 type Hl1 Ht)).
  assert (forall dflt,
    (thresholds ← dict_get l "thresholds" dflt;
     dict_setitem l "thresholds" thresholds) st1
    = (Ok tt, set_store st
                (<[l := <["thresholds" := default dflt (d !! "thresholds")]> d1]>
                   (store st)))) as Hbranch.
  { intros dflt.
    rewrite (bind_run _ _ _ _ _ (dict_get_run l "thresholds" dflt st1 d1 Hl1)).
    rewrite (dict_setitem_run l "thresholds" _ st1 d1 Hl1), Hth.
    unfold set_store, st1. simpl. by rewrite insert_insert_eq. }
  unfold with_size_defaults. fold type. fold d1.
  destruct (py_eq_str type "graph");
    by rewrite (bind_run _ _ _ _ _ (Hbranch _)).
Qed.

Lemma resolve_size_column_run (doc : Document) st :
  match doc_size_column doc with
  | Some l =>
      match store st !! l with
      | Some d =>
          resolve_size_column doc st
          = (Ok l, set_store st (<[l := with_size_defaults d]> (store st)))
      | None => returns (resolve_size_column doc st) = false
      end
  | None =>
      let l := fresh (dom (store st)) in
      store st !! l = None
      /\ resolve_size_column doc st
         = (Ok l, set_store st (<[l := with_size_defaults ∅]> (store st)))
  end.
Proof.
  unfold resolve_size_column. destruct (doc_size_column doc) as [l|].
  - destruct (store st !! l) as [d|] eqn:Hl.
    + rewrite (bind_run _ _ st l st eq_refl). by apply size_column_steps_run.
    + unfold mbind at 1, M_bind at 1, mret at 1, M_ret at 1.
      unfold mbind at 1, M_bind at 1, dict_get at 1. by rewrite Hl.
  - cbv zeta. set (l := fresh (dom (store st))). split.
    + apply not_elem_of_dom, is_fresh.
    + rewrite (bind_run (new_dict ∅) _ st l
                 (set_store st (<[l := ∅]> (store st))) eq_refl).
      rewrite (size_column_steps_run l ∅) by apply lookup_insert_eq.
      unfold set_store. simpl. by rewrite insert_insert_eq.
Qed.

Lemma with_size_defaults_type (d : dict) :
  with_size_defaults d !! "type" = Some (default (PStr "graph") (d !! "type")).
Proof.
  unfold with_size_defaults.
  rewrite lookup_insert_ne by done. apply lookup_insert_eq.
Qed.

Lemma with_size_defaults_thresholds (d : dict) :
  with_size_defaults d !! "thresholds"
  = Some (default
            (if py_eq_str (default (PStr "graph") (d !! "type")) "graph"
             then PList (map PInt [1; 10; 100; 1000])
             else PList (map PInt [1; 10; 100; 200; 400; 600; 800; 1000]))
            (d !! "thresholds")).
Proof. unfold with_size_defaults. apply lookup_insert_eq. Qed.

Lemma with_size_defaults_keeps (d : dict) (k : string) (v : pyval) :
  d !! k = Some v -> with_size_defaults d !! k = Some v.
Proof.
  intros Hk. destruct (decide (k = "thresholds")) as [-> | Hth].
  - by rewrite with_size_defaults_thresholds, Hk.
  - destruct (decide (k = "type")) as [-> | Hty].
    + by rewrite with_size_defaults_type, Hk.
    + unfold with_size_defaults. by rewrite !lookup_insert_ne.
Qed.

Lemma with_size_defaults_other (d : dict) (k : string) :
  k <> "type" -> k <> "thresholds" -> with_size_defaults d !! k = d !! k.
Proof. intros ? ?. unfold with_size_defaults. by rewrite !lookup_insert_ne. Qed.

Section SizeColumn.
Context `{Collaborators}.

Lemma size_column_of_run
    host server_name palette_name keymap_name p st cfg st' written :
  Config_init host server_name palette_name keymap_name p st = (Ok cfg, st') ->
  host_file host (expanduser (home st) p) = Valid written ->
  exists st0,
    yaml_safe_load written st = (Ok (config cfg), st0)
    /\ store st'
       = <[size_column cfg
           := with_size_defaults (default ∅ (doc_size_column written))]>
           (store st0)
    /\ match doc_size_column written with
       | Some d => doc_size_column (config cfg) = Some (size_column cfg)
                   /\ store st0 !! size_column cfg = Some d
       | None => doc_size_column (config cfg) = None
                 /\ store st0 !! size_column cfg = None
       end.
Proof.
  intros Hrun Hfile.
  destruct (Config_init_Ok _ _ _ _ _ _ _ _ Hrun)
    as (doc & srv & st1 & (written' & st0 & Hfile' & Hload & Hst & _)
        & _ & _ & Hdoc & Hrest).
  rewrite Hfile in Hfile'. injection Hfile' as <-.
  do 10 destruct Hrest as [_ Hrest]. rename Hrest into Hsc.
  exists st0. rewrite Hdoc. split; [done |].
  pose proof (yaml_safe_load_run written st) as Hl.
  pose proof (resolve_size_column_run doc st1) as Hstep.
  rewrite Hst in Hstep.
  destruct (doc_size_column written) as [d|].
  - cbv zeta in Hl. destruct Hl as [_ Hl]. rewrite Hload in Hl.
    injection Hl as -> ->. simpl in Hstep. rewrite lookup_insert_eq in Hstep.
    rewrite Hsc in Hstep. injection Hstep as -> ->. simpl.
    split; [done |]. split; [done | apply lookup_insert_eq].
  - rewrite Hload in Hl. injection Hl as -> ->. simpl in Hstep.
    destruct Hstep as [Hfresh Hstep]. rewrite Hsc in Hstep.
    by injection Hstep as -> ->.
Qed.

(** C7: the thresholds of the resolved size column.  With no
    [thresholds] in the document's [size-column] they are
    [1, 10, 100, 1000] when the type is [graph], which it is when the
    document gives none, and [1, 10, 100, 200, 400, 600, 800, 1000]
    when the type is anything else; thresholds that the document
    gives are taken as they are, whatever the type. *)
Theorem thresholds_default_by_type
    host server_name palette_name keymap_name p st cfg st' written :
  Config_init host server_name palette_name keymap_name p st = (Ok cfg, st') ->
  host_file host (expanduser (home st) p) = Valid written ->
  let supplied : dict := default ∅ (doc_size_column written) in
  let resolved := store st' !! size_column cfg in
  let type := default (PStr "graph") (supplied !! "type") in
  (resolved ≫= (.!! "type")) = Some type
  /\ (supplied !! "thresholds" = None -> py_eq_str type "graph" = true ->
      (resolved ≫= (.!! "thresholds"))
      = Some (PList (map PInt [1; 10; 100; 1000])))
  /\ (supplied !! "thresholds" = None -> py_eq_str type "graph" = false ->
      (resolved ≫= (.!! "thresholds"))
      = Some (PList (map PInt [1; 10; 100; 200; 400; 600; 800; 1000])))
  /\ (forall thresholds, supplied !! "thresholds" = Some thresholds ->
      (resolved ≫= (.!! "thresholds")) = Some thresholds).
Proof.
  intros Hrun Hfile supplied resolved type.
  destruct (size_column_of_run _ _ _ _ _ _ _ _ _ Hrun Hfile)
    as (st0 & _ & Hst' & _).
  assert (resolved = Some (with_size_defaults supplied)) as Hres.
  { subst resolved. rewrite Hst'. apply lookup_insert_eq. }
  subst type. rewrite Hres. simpl.
  rewrite with_size_defaults_type, with_size_defaults_thresholds.
  split; [done |]. split; [|split].
  - intros -> ->. done.
  - intros -> ->. done.
  - intros thresholds ->. done.
Qed.

(** C10: when the document has a [size-column] section, the resolved
    [size_column] is the very dict object that the loaded document has
    under [size-column], and resolution writes into it: the object held
    the section as it was written when the document was loaded, and
    afterwards it holds [type] and [thresholds] as well; the keys it
    had keep their values, and where one of the two was absent the dict
    of the document is no longer what it was.  No other dict is
    touched. *)
Theorem size_column_is_the_dict_of_the_document
    host server_name palette_name keymap_name p st cfg st' written :
  Config_init host server_name palette_name keymap_name p st = (Ok cfg, st') ->
  host_file host (expanduser (home st) p) = Valid written ->
  forall before, doc_size_column written = Some before ->
    doc_size_column (config cfg) = Some (size_column cfg)
    /\ exists st0 after,
         yaml_safe_load written st = (Ok (config cfg), st0)
         /\ store st0 !! size_column cfg = Some before
         /\ store st' !! size_column cfg = Some after
         /\ after = with_size_defaults before
         /\ is_Some (after !! "type")
         /\ is_Some (after !! "thresholds")
         /\ (before !! "type" = None -> after !! "type" = Some (PStr "graph"))
         /\ (forall k v, before !! k = Some v -> after !! k = Some v)
         /\ (forall k, k <> "type" -> k <> "thresholds" ->
                       after !! k = before !! k)
         /\ (before !! "type" = None \/ before !! "thresholds" = None ->
             after <> before)
         /\ (forall l', l' <> size_column cfg ->
                        store st' !! l' = store st0 !! l').
Proof.
  intros Hrun Hfile d Hd.
  destruct (size_column_of_run _ _ _ _ _ _ _ _ _ Hrun Hfile)
    as (st0 & Hload & Hst' & Hdoc).
  rewrite Hd in Hdoc, Hst'. simpl in Hst'. destruct Hdoc as [Hsame Hbefore].
  split; [done |]. exists st0, (with_size_defaults d). rewrite Hst'.
  split; [done |]. split; [done |].
  split; [apply lookup_insert_eq |]. split; [done |].
  split; [by rewrite with_size_defaults_type |].
  split; [by rewrite with_size_defaults_thresholds |].
  split; [intros Hty; by rewrite with_size_defaults_type, Hty |].
  split; [apply with_size_defaults_keeps |].
  split; [apply with_size_defaults_other |].
  split.
  - intros [Hty | Hth] Heq.
    + pose proof (with_size_defaults_type d) as Ht.
      rewrite Heq, Hty in Ht. discriminate.
    + pose proof (with_size_defaults_thresholds d) as Ht.
      rewrite Heq, Hth in Ht. discriminate.
  - intros l' Hne. by rewrite lookup_insert_ne.
Qed.

End SizeColumn.

Example size_column_absent :
  match Config_init (H := recording)
          (a_host (a_document [a_server "http://h" None None]) 0)
          None "default" "default" DEFAULT_CONFIG_PATH (a_state ∅)
  with
  | (Ok cfg, st') =>
      doc_size_column (config cfg) = None
      /\ size_column_of st' (size_column cfg) "type" = Some (PStr "graph")
      /\ size_column_of st' (size_column cfg) "thresholds"
         = Some (PList [PInt 1; PInt 10; PInt 100; PInt 1000])
  | _ => False
  end.
Proof. vm_compute. by repeat split. Qed.

Example size_column_number :
  match Config_init (H := recording)
          (a_host (a_document_with_size_column {[ "type" := PStr "number" ]}) 0)
          None "default" "default" DEFAULT_CONFIG_PATH (a_state ∅)
  with
  | (Ok cfg, st') =>
      doc_size_column (config cfg) = Some (size_column cfg)
      /\ size_column_of st' (size_column cfg) "type" = Some (PStr "number")
      /\ size_column_of st' (size_column cfg) "thresholds"
         = Some (PList [PInt 1; PInt 10; PInt 100; PInt 200; PInt 400;
                        PInt 600; PInt 800; PInt 1000])
  | _ => False
  end.
Proof. vm_compute. by repeat split. Qed.

Example size_column_null_type :
  match Config_init (H := recording)
          (a_host (a_document_with_size_column {[ "type" := PNone ]}) 0)
          None "default" "default" DEFAULT_CONFIG_PATH (a_state ∅)
  with
  | (Ok cfg, st') =>
      size_column_of st' (size_column cfg) "type" = Some PNone
      /\ size_column_of st' (size_column cfg) "thresholds"
         = Some (PList [PInt 1; PInt 10; PInt 100; PInt 200; PInt 400;
                        PInt 600; PInt 800; PInt 1000])
  | _ => False
  end.
Proof. vm_compute. by repeat split. Qed.

Example size_column_given_thresholds :
  match Config_init (H := recording)
          (a_host (a_document_with_size_column
                     (<["type" := PStr "graph"]>
                        {[ "thresholds" := PList [PInt 5; PInt 50] ]})) 0)
          None "default" "default" DEFAULT_CONFIG_PATH (a_state ∅)
  with
  | (Ok cfg, st') =>
      size_column_of st' (size_column cfg) "type" = Some (PStr "graph")
      /\ size_column_of st' (size_column cfg) "thresholds"
         = Some (PList [PInt 5; PInt 50])
  | _ => False
  end.
Proof. vm_compute. by repeat split. Qed.

Lemma thresholds_default_by_type_witness :
  match Config_init (H := recording)
          (a_host (a_document_with_size_column {[ "type" := PStr "number" ]}) 0)
          None "default" "default" DEFAULT_CONFIG_PATH (a_state ∅)
  with
  | (Ok cfg, st') =>
      let supplied : dict := {[ "type" := PStr "number" ]} in
      let resolved := store st' !! size_column cfg in
      let type := default (PStr "graph") (supplied !! "type") in
      (resolved ≫= (.!! "type")) = Some type
      /\ (supplied !! "thresholds" = None -> py_eq_str type "graph" = true ->
          (resolved ≫= (.!! "thresholds"))
          = Some (PList (map PInt [1; 10; 100; 1000])))
      /\ (supplied !! "thresholds" = None -> py_eq_str type "graph" = false ->
          (resolved ≫= (.!! "thresholds"))
          = Some (PList (map PInt [1; 10; 100; 200; 400; 600; 800; 1000])))
      /\ (forall thresholds, supplied !! "thresholds" = Some thresholds ->
          (resolved ≫= (.!! "thresholds")) = Some thresholds)
  | _ => False
  end.
Proof.
  by_running ltac:(fun E =>
    exact (thresholds_default_by_type (H := recording) _ _ _ _ _ _ _ _
             (a_document_with_size_column {[ "type" := PStr "number" ]})
             E eq_refl)).
Defined.

Lemma size_column_is_the_dict_of_the_document_witness :
  match Config_init (H := recording)
          (a_host (a_document_with_size_column {[ "type" := PStr "number" ]}) 0)
          None "default" "default" DEFAULT_CONFIG_PATH (a_state ∅)
  with
  | (Ok cfg, st') =>
      let written := a_document_with_size_column {[ "type" := PStr "number" ]} in
      let before : dict := {[ "type" := PStr "number" ]} in
      doc_size_column (config cfg) = Some (size_column cfg)
      /\ exists st0 after,
           yaml_safe_load written (a_state ∅) = (Ok (config cfg), st0)
           /\ store st0 !! size_column cfg = Some before
           /\ store st' !! size_column cfg = Some after
           /\ after = with_size_defaults before
           /\ is_Some (after !! "type")
           /\ is_Some (after !! "thresholds")
           /\ (before !! "type" = None -> after !! "type" = Some (PStr "graph"))
           /\ (forall k v, before !! k = Some v -> after !! k = Some v)
           /\ (forall k, k <> "type" -> k <> "thresholds" ->
                         after !! k = before !! k)
           /\ (before !! "type" = None \/ before !! "thresholds" = None ->
               after <> before)
           /\ (forall l', l' <> size_column cfg ->
                          store st' !! l' = store st0 !! l')
  | _ => False
  end.
Proof.
  by_running ltac:(fun E =>
    exact (size_column_is_the_dict_of_the_document (H := recording)
             _ _ _ _ _ _ _ _
             (a_document_with_size_column {[ "type" := PStr "number" ]})
             E eq_refl {[ "type" := PStr "number" ]} eq_refl)).
Defined.

(* ===================================================================== *)
(** * Further properties *)
(* ===================================================================== *)

(** ** The steps of a run, one by one *)

Section Run.
Context `{Collaborators}.

(** The rest of what a run that returns has done, beside
    [Config_init_Ok]. *)
Lemma Config_init_Ok_rest host server_name palette_name keymap_name p st cfg st' :
  Config_init host server_name palette_name keymap_name p st = (Ok cfg, st') ->
  exists written st0 st1,
    host_file host (expanduser (home st) p) = Valid written
    /\ yaml_safe_load written st = (Ok (config cfg), st0)
    /\ getServer written server_name = Some (server cfg)
    /\ resolve_password host (path cfg) (url cfg) (username cfg) (server cfg) st0
       = (Ok (password cfg), st1)
    /\ environ st'
       = tls_environ (expanduser (home st)) (server cfg) (environ st)
    /\ events st'
       = events st
         ++ password_events (path cfg) (password_prompt (url cfg) (username cfg))
              (server cfg)
    /\ fst (resolve_hide_comments (default [] (doc_hide_comments written)) st)
       = Ok (hide_comments cfg)
    /\ path cfg = expanduser (home st) p
    /\ urlparse_netloc (url cfg) = Some (hostname cfg)
    /\ username cfg = srv_username (server cfg)
    /\ auth_type cfg = default "digest" (srv_auth_type (server cfg))
    /\ verify_ssl cfg = default true (srv_verify_ssl (server cfg))
    /\ ssl_ca_path cfg = expanduser (home st) <$> srv_ssl_ca_path (server cfg)
    /\ git_root cfg = expanduser (home st) (srv_git_root (server cfg))
    /\ dburi cfg
       = default ("sqlite:///" +:+ expanduser (home st) "~/.gertty.db")
           (srv_dburi (server cfg))
    /\ socket_path cfg
       = expanduser (home st)
           (default "~/.gertty.sock" (srv_socket (server cfg)))
    /\ log_file cfg
       = expanduser (home st)
           (default "~/.gertty.log" (srv_log_file (server cfg)))
    /\ lock_file cfg
       = expanduser (home st)
           (default ("~/.gertty." +:+ srv_name (server cfg) +:+ ".lock")
              (srv_lock_file (server cfg)))
    /\ project_change_list_query cfg
       = default "status:open" (doc_change_list_query written)
    /\ diff_view cfg = default "side-by-side" (doc_diff_view written)
    /\ thread_changes cfg = default true (doc_thread_changes written)
    /\ utc cfg = default false (doc_display_times_in_utc written)
    /\ breadcrumbs cfg = default true (doc_breadcrumbs written)
    /\ close_change_on_review cfg
       = default false (doc_close_change_on_review written)
    /\ handle_mouse cfg = default true (doc_handle_mouse written)
    /\ change_list_options cfg
       = (default (PStr "number")
            (doc_change_list_options written ≫= clo_sort_by),
          default false (doc_change_list_options written ≫= clo_reverse))
    /\ expire_age cfg = default "2 months" (doc_expire_age written).
Proof.
  unfold Config_init. intros Hrun. rewrite expanduser_bind in Hrun.
  destruct (host_file host (expanduser (home st) p)) as [| |written] eqn:Hfile.
  { apply bind_Ok in Hrun as (? & ? & _ & Hexit). discriminate. }
  { discriminate. }
  apply bind_Ok in Hrun as (doc & s0 & Hload & Hrun).
  destruct (yaml_safe_load_Ok written st)
    as (doc' & s0' & Hload' & Hev0 & Henv0 & _).
  rewrite Hload in Hload'. injection Hload' as <- <-.
  assert (forall A (f : forall R, DocumentOf R -> A),
            (forall R S (d : DocumentOf R) (sc : option S),
                f S (with_size_column d sc) = f R d) ->
            f _ doc = f _ written) as Hsame.
  { intros A f Hf. destruct (yaml_safe_load_fields _ _ _ _ Hload) as [sc ->].
    apply Hf. }
  apply bind_Ok in Hrun as (srv & s1 & Hsel & Hrun).
  destruct (getServer doc server_name) as [srv'|] eqn:Hget; [|discriminate].
  injection Hsel as -> <-. cbv beta zeta in Hrun.
  apply bind_Ok in Hrun as (h & s1 & Hparse & Hrun).
  apply urlparse_Ok in Hparse as [Hparse ->].
  apply bind_Ok in Hrun as (pw & s2 & Hpw & Hrun).
  destruct (resolve_password_Ok _ _ _ _ _ _ _ _ Hpw) as (_ & Henv2 & Hev2 & _).
  assert (home s2 = home st) as Hh2 by (unfold home; by rewrite Henv2, Henv0).
  rewrite tls_steps_run, Hh2 in Hrun.
  set (s3 := {| store := store s2;
                environ := tls_environ (expanduser (home st)) srv (environ s2);
                events := events s2 |}) in Hrun.
  assert (home s3 = home st) as Hh3.
  { unfold home, s3. cbn [environ]. rewrite tls_environ_home. exact Hh2. }
  rewrite !expanduser_bind, Hh3 in Hrun.
  apply bind_Ok in Hrun as (pal & s5 & Hpal & Hrun).
  unfold getitem in Hpal.
  destruct (resolve_palettes _ !! _) as [pal'|]; [|discriminate].
  injection Hpal as -> <-.
  apply bind_Ok in Hrun as (km & s6 & Hkm & Hrun).
  unfold getitem in Hkm.
  destruct (resolve_keymaps _ !! _) as [km'|]; [|discriminate].
  injection Hkm as -> <-.
  apply bind_Ok in Hrun as (hc & s7 & Hhc & Hrun).
  pose proof (resolve_hide_comments_state
                (default [] (doc_hide_comments doc)) s3) as E7.
  rewrite Hhc in E7. simpl in E7. subst s7.
  apply bind_Ok in Hrun as (sc & s8 & Hsc & Hrun).
  injection Hrun as <- <-.
  pose proof (resolve_size_column_run doc s3) as Hstep.
  assert (environ s8 = environ s3 /\ events s8 = events s3) as [Henv8 Hev8].
  { destruct (doc_size_column doc) as [l|].
    - destruct (store s3 !! l).
      + rewrite Hsc in Hstep. by injection Hstep as _ ->.
      + rewrite Hsc in Hstep. discriminate.
    - destruct Hstep as [_ Hstep]. rewrite Hsc in Hstep.
      by injection Hstep as _ ->. }
  exists written, s0, s2. cbn -[tls_environ password_events].
  assert (getServer written server_name = Some srv) as Hgetw.
  { rewrite <- Hget. symmetry.
    apply (Hsame _ (fun R d => getServer d server_name)). done. }
  assert (fst (resolve_hide_comments (default [] (doc_hide_comments written)) st)
          = Ok hc) as Hhide.
  { rewrite <- (Hsame _ (fun R d => doc_hide_comments d)) by done.
    destruct (resolve_hide_comments_pure (default [] (doc_hide_comments doc)))
      as [r Hr].
    rewrite Hr in Hhc. rewrite Hr. by injection Hhc as ->. }
  repeat split; try done.
  - rewrite Henv8. unfold s3. cbn [environ]. by rewrite Henv2, Henv0.
  - rewrite Hev8. unfold s3. cbn [events]. by rewrite Hev2, Hev0.
  - by rewrite <- (Hsame _ (fun R d => doc_change_list_query d)).
  - by rewrite <- (Hsame _ (fun R d => doc_diff_view d)).
  - by rewrite <- (Hsame _ (fun R d => doc_thread_changes d)).
  - by rewrite <- (Hsame _ (fun R d => doc_display_times_in_utc d)).
  - by rewrite <- (Hsame _ (fun R d => doc_breadcrumbs d)).
  - by rewrite <- (Hsame _ (fun R d => doc_close_change_on_review d)).
  - by rewrite <- (Hsame _ (fun R d => doc_handle_mouse d)).
  - rewrite <- (Hsame _ (fun R d => doc_change_list_options d)) by done.
    by destruct (doc_change_list_options doc).
  - by rewrite <- (Hsame _ (fun R d => doc_expire_age d)).
Qed.

End Run.

(** ** Runs that do not return *)

Section Failures.
Context `{Collaborators}.

(** X1: when there is no file at the path, the constructor prints the
    text about the sample configuration files and leaves with status 1;
    it has asked nothing, looked at no file mode, and left the
    environment and the dict objects as they were. *)
Theorem missing_file_prints_the_sample
    host server_name palette_name keymap_name p st :
  host_file host (expanduser (home st) p) = Missing ->
  exists text,
    Config_init host server_name palette_name keymap_name p st
    = (SysExit 1,
       {| store := store st; environ := environ st;
          events := events st ++ [Printed text] |})
    /\ String.prefix "Gertty requires a configuration file at ~/.gertty.yaml"
         text = true.
Proof.
  intros Hfile. unfold Config_init. rewrite expanduser_bind, Hfile.
  by eexists.
Qed.

(** X2: when no server record is selected, because the requested name
    is not in the document or the [servers] list is empty, the
    constructor raises [TypeError] on the first use of the record: it
    has not asked for a password, not looked at the file mode, not
    printed, and not touched the environment. *)
Theorem unknown_server_raises
    host server_name palette_name keymap_name p st written :
  host_file host (expanduser (home st) p) = Valid written ->
  getServer written server_name = None ->
  let run := Config_init host server_name palette_name keymap_name p st in
  run.1 = Raised (TypeError "'NoneType' object is not subscriptable")
  /\ events run.2 = events st
  /\ environ run.2 = environ st.
Proof.
  intros Hfile Hget run.
  destruct (yaml_safe_load_Ok written st)
    as (doc & st0 & Hload & Hev & Henv & Hservers).
  assert (getServer doc server_name = None) as Hget0
    by (unfold getServer in *; by rewrite Hservers).
  assert (run = (Raised (TypeError "'NoneType' object is not subscriptable"),
                 st0)) as ->; [| cbn [fst snd]; by rewrite Hev, Henv].
  subst run. unfold Config_init.
  by rewrite expanduser_bind, Hfile, (bind_run _ _ _ _ _ Hload), Hget0.
Qed.

(** X3: a run that returns has printed nothing.  With a [password] in
    the server record it has looked at the mode of the file, once, the
    low nine bits of the mode are 0600 whatever the other bits are, the
    password is the one of the record, and nothing was asked at the
    terminal; with no [password] it has asked once and not looked at
    the file. *)
Theorem returning_run_trace
    host server_name palette_name keymap_name p st cfg st' :
  Config_init host server_name palette_name keymap_name p st = (Ok cfg, st') ->
  let prompt := password_prompt (url cfg) (username cfg) in
  (forall stored, srv_password (server cfg) = Some stored ->
     events st' = events st ++ [Statted (path cfg)]
     /\ password cfg = stored
     /\ Z.land (host_st_mode host (path cfg)) 511 = 384)
  /\ (srv_password (server cfg) = None ->
      events st' = events st ++ [Prompted prompt]
      /\ password cfg = host_typed host prompt).
Proof.
  intros Hrun prompt.
  destruct (Config_init_Ok_rest _ _ _ _ _ _ _ _ Hrun)
    as (written & st0 & st1 & _ & _ & _ & Hpass & _ & Hev & _).
  destruct (resolve_password_Ok _ _ _ _ _ _ _ _ Hpass) as (_ & _ & _ & Hpw).
  unfold password_events in Hev. split.
  - intros stored Hs. rewrite Hs in Hev, Hpw. by destruct Hpw.
  - intros Hs. by rewrite Hs in Hev, Hpw.
Qed.

(** X4: what a run that returns has done to the environment, for the
    server record [srv] that the file gives for the requested name.
    [GIT_SSL_NO_VERIFY] is [true] when [verify-ssl] is false, and is
    left as it was, set or not, when [verify-ssl] is true or absent;
    [REQUESTS_CA_BUNDLE] and [GIT_SSL_CAINFO] are both the expanded
    [ssl-ca-path] when there is one, and are left as they were when
    there is none; no other variable is touched. *)
Theorem tls_settings_reach_the_environment
    host server_name palette_name keymap_name p st cfg st' written srv :
  Config_init host server_name palette_name keymap_name p st = (Ok cfg, st') ->
  host_file host (expanduser (home st) p) = Valid written ->
  getServer written server_name = Some srv ->
  let verify := default true (srv_verify_ssl srv) in
  let ca := expanduser (home st) <$> srv_ssl_ca_path srv in
  verify_ssl cfg = verify
  /\ ssl_ca_path cfg = ca
  /\ environ st' !! "GIT_SSL_NO_VERIFY"
     = (if verify then environ st !! "GIT_SSL_NO_VERIFY" else Some "true")
  /\ environ st' !! "REQUESTS_CA_BUNDLE"
     = from_option Some (environ st !! "REQUESTS_CA_BUNDLE") ca
  /\ environ st' !! "GIT_SSL_CAINFO"
     = from_option Some (environ st !! "GIT_SSL_CAINFO") ca
  /\ (forall k, k <> "GIT_SSL_NO_VERIFY" -> k <> "REQUESTS_CA_BUNDLE" ->
                k <> "GIT_SSL_CAINFO" -> environ st' !! k = environ st !! k).
Proof.
  intros Hrun Hfile Hget verify ca.
  pose proof (Config_init_of_server _ _ _ _ _ _ _ _ _ _ Hrun Hfile Hget) as Hs.
  destruct (Config_init_Ok_rest _ _ _ _ _ _ _ _ Hrun)
    as (written' & st0 & st1 & _ & _ & _ & _ & Henv & _ & _ & _ & _ & _ & _
        & Hv & Hca & _).
  rewrite Hs in Henv, Hv, Hca. subst verify ca.
  rewrite Henv, Hv, Hca. unfold tls_environ.
  split; [done |]. split; [done |].
  destruct (default true (srv_verify_ssl srv)), (srv_ssl_ca_path srv) as [ca|];
    simpl; repeat split; intros;
    repeat (rewrite lookup_insert_eq || rewrite lookup_insert_ne by done);
    done.
Qed.

End Failures.

Lemma missing_file_prints_the_sample_witness :
  exists text,
    Config_init (H := recording) (a_host (a_document []) 0)
      None "default" "default" "elsewhere.yaml" (a_state ∅)
    = (SysExit 1,
       {| store := ∅; environ := ∅; events := [] ++ [Printed text] |})
    /\ String.prefix "Gertty requires a configuration file at ~/.gertty.yaml"
         text = true.
Proof.
  exact (missing_file_prints_the_sample (H := recording)
           (a_host (a_document []) 0) None "default" "default"
           "elsewhere.yaml" (a_state ∅) eq_refl).
Defined.

Lemma unknown_server_raises_witness :
  (Config_init (H := recording)
     (a_host (a_document [a_server "http://h" None None]) 0)
     (Some "staging") "default" "default" DEFAULT_CONFIG_PATH (a_state ∅)).1
  = Raised (TypeError "'NoneType' object is not subscriptable")
  /\ events (Config_init (H := recording)
               (a_host (a_document [a_server "http://h" None None]) 0)
               (Some "staging") "default" "default" DEFAULT_CONFIG_PATH
               (a_state ∅)).2
     = []
  /\ environ (Config_init (H := recording)
                (a_host (a_document [a_server "http://h" None None]) 0)
                (Some "staging") "default" "default" DEFAULT_CONFIG_PATH
                (a_state ∅)).2
     = ∅.
Proof.
  exact (unknown_server_raises (H := recording)
           (a_host (a_document [a_server "http://h" None None]) 0)
           (Some "staging") "default" "default" DEFAULT_CONFIG_PATH (a_state ∅)
           (a_document [a_server "http://h" None None]) eq_refl eq_refl).
Defined.

Example no_servers_at_all :
  (Config_init (H := recording) (a_host (a_document []) 0)
     None "default" "default" DEFAULT_CONFIG_PATH (a_state ∅)).1
  = Raised (TypeError "'NoneType' object is not subscriptable").
Proof. by vm_compute. Qed.

Lemma returning_run_trace_witness :
  match Config_init (H := recording)
          (a_host (a_document [a_server "http://h" (Some "x") None]) 33152)
          None "default" "default" DEFAULT_CONFIG_PATH (a_state ∅)
  with
  | (Ok cfg, st') =>
      let prompt := password_prompt (url cfg) (username cfg) in
      (forall stored, srv_password (server cfg) = Some stored ->
         events st' = [] ++ [Statted (path cfg)]
         /\ password cfg = stored
         /\ Z.land 33152 511 = 384)
      /\ (srv_password (server cfg) = None ->
          events st' = [] ++ [Prompted prompt]
          /\ password cfg = "secret")
  | _ => False
  end.
Proof.
  by_running ltac:(fun E => exact (returning_run_trace _ _ _ _ _ _ _ _ E)).
Defined.

Example tls_settings_of_a_server :
  match Config_init (H := recording)
          (a_host (a_document [a_tls_server (Some false) (Some "~/ca.pem")]) 0)
          None "default" "default" DEFAULT_CONFIG_PATH (a_state ∅)
  with
  | (Ok cfg, st') =>
      environ st' !! "GIT_SSL_NO_VERIFY" = Some "true"
      /\ environ st' !! "REQUESTS_CA_BUNDLE" = Some "/home/user/ca.pem"
      /\ environ st' !! "GIT_SSL_CAINFO" = Some "/home/user/ca.pem"
      /\ environ st' !! "HOME" = None
  | _ => False
  end.
Proof. vm_compute. by repeat split. Qed.

Lemma tls_settings_reach_the_environment_witness :
  match Config_init (H := recording)
          (a_host (a_document [a_tls_server (Some false) (Some "~/ca.pem")]) 0)
          None "default" "default" DEFAULT_CONFIG_PATH (a_state ∅)
  with
  | (Ok cfg, st') =>
      let before : gmap string string := ∅ in
      verify_ssl cfg = false
      /\ ssl_ca_path cfg = Some "/home/user/ca.pem"
      /\ environ st' !! "GIT_SSL_NO_VERIFY" = Some "true"
      /\ environ st' !! "REQUESTS_CA_BUNDLE" = Some "/home/user/ca.pem"
      /\ environ st' !! "GIT_SSL_CAINFO" = Some "/home/user/ca.pem"
      /\ (forall k, k <> "GIT_SSL_NO_VERIFY" -> k <> "REQUESTS_CA_BUNDLE" ->
                    k <> "GIT_SSL_CAINFO" -> environ st' !! k = before !! k)
  | _ => False
  end.
Proof.
  by_running ltac:(fun E =>
    exact (tls_settings_reach_the_environment (H := recording)
             _ _ _ _ _ _ _ _
             (a_document [a_tls_server (Some false) (Some "~/ca.pem")])
             (a_tls_server (Some false) (Some "~/ca.pem")) E eq_refl eq_refl)).
Defined.

(** ** Lock files *)




Section LockFile.
Context `{Collaborators}.


End LockFile.

Example default_lock_files :
  match Config_init (H := recording)
          (a_host (a_document [a_server_named "prod"]) 0)
          None "default" "default" DEFAULT_CONFIG_PATH (a_state ∅)
  with
  | (Ok cfg, _) => lock_file cfg = "/home/user/.gertty.prod.lock"
  | _ => False
  end.
Proof. by vm_compute. Qed.


(** ** Names of palettes and key maps *)

Lemma layered_dom {T} (new : dict -> T) (update : T -> dict -> T)
    (entries : list NamedEntry) (c : gmap string T) (n : string) :
  is_Some (foldl (layer new update) c entries !! n)
  <-> is_Some (c !! n) \/ n ∈ map entry_name entries.
Proof.
  revert c. induction entries as [|p entries IH]; intros c; simpl.
  - split; [by left | intros [? | Hin]; [done | by apply elem_of_nil in Hin]].
  - rewrite IH, layer_lookup, elem_of_cons.
    destruct (decide (n = entry_name p)) as [-> | Hne].
    + split; [intros _; right; by left | intros _; left; by eexists].
    + split.
      * intros [? | ?]; [by left | right; by right].
      * intros [? | [? | ?]]; [by left | done | by right].
Qed.

Section Names.
Context `{Collaborators}.

Lemma resolve_palettes_dom entries n :
  is_Some (resolve_palettes entries !! n)
  <-> n ∈ "default" :: "light" :: map entry_name entries.
Proof.
  unfold resolve_palettes. rewrite layered_dom, !elem_of_cons.
  destruct (decide (n = "default")) as [-> | Hd].
  { rewrite lookup_insert_eq. split; intros _; [by left | left; by eexists]. }
  rewrite lookup_insert_ne by done.
  destruct (decide (n = "light")) as [-> | Hl].
  { rewrite lookup_insert_eq.
    split; intros _; [right; by left | left; by eexists]. }
  rewrite lookup_insert_ne, lookup_empty by done. split.
  - intros [[x Hx] | ?]; [discriminate | right; by right].
  - intros [? | [? | ?]]; [done | done | by right].
Qed.

Lemma resolve_keymaps_dom entries n :
  is_Some (resolve_keymaps entries !! n)
  <-> n ∈ "default" :: "vi" :: map entry_name entries.
Proof.
  unfold resolve_keymaps. rewrite layered_dom, !elem_of_cons.
  destruct (decide (n = "default")) as [-> | Hd].
  { rewrite lookup_insert_eq. split; intros _; [by left | left; by eexists]. }
  rewrite lookup_insert_ne by done.
  destruct (decide (n = "vi")) as [-> | Hl].
  { rewrite lookup_insert_eq.
    split; intros _; [right; by left | left; by eexists]. }
  rewrite lookup_insert_ne, lookup_empty by done. split.
  - intros [[x Hx] | ?]; [discriminate | right; by right].
  - intros [? | [? | ?]]; [done | done | by right].
Qed.

(** X6: the palettes of a configuration are the two built-in ones and
    one for every name in the [palettes] of the file, and nothing else;
    the same for key maps, with [vi] in place of [light].  A built-in
    name is never lost, whatever the entries of the file are called. *)
Theorem palettes_are_the_named_ones
    host server_name palette_name keymap_name p st cfg st' written :
  Config_init host server_name palette_name keymap_name p st = (Ok cfg, st') ->
  host_file host (expanduser (home st) p) = Valid written ->
  forall n,
    (is_Some (palettes cfg !! n) <-> n ∈ palette_names written)
    /\ (is_Some (keymaps cfg !! n) <-> n ∈ keymap_names written).
Proof.
  intros Hrun Hfile n.
  destruct (Config_init_of_file _ _ _ _ _ _ _ _ _ Hrun Hfile) as [[sc Hc] _].
  destruct (Config_init_Ok _ _ _ _ _ _ _ _ Hrun)
    as (doc & srv & st1 & _ & _ & _ & Hdoc & _ & _ & _ & Hp & _ & Hk & _).
  rewrite <- Hdoc, Hc in Hp, Hk.
  cbn [with_size_column doc_palettes doc_keymaps] in Hp, Hk.
  rewrite Hp, Hk. split.
  - apply resolve_palettes_dom.
  - apply resolve_keymaps_dom.
Qed.



End Names.

Example unknown_palette :
  let run :=
    Config_init (H := recording) (a_host a_document_with_unknown_palette 0)
      None "default" "default" DEFAULT_CONFIG_PATH (a_state ∅) in
  run.1 = Raised (KeyError "solarized")
  /\ events run.2 = [Prompted "Password for https://h/ (alice): "]
  /\ environ run.2 !! "GIT_SSL_NO_VERIFY" = Some "true".
Proof. by vm_compute. Qed.


Lemma palettes_are_the_named_ones_witness :
  match Config_init (H := recording)
          (a_host (a_document_with_themes None None) 0)
          None "default" "default" DEFAULT_CONFIG_PATH (a_state ∅)
  with
  | (Ok cfg, _) =>
      (is_Some (palettes cfg !! "mine")
       <-> "mine" ∈ palette_names (a_document_with_themes None None))
      /\ (is_Some (keymaps cfg !! "mine")
          <-> "mine" ∈ keymap_names (a_document_with_themes None None))
  | _ => False
  end.
Proof.
  by_running ltac:(fun E =>
    exact (palettes_are_the_named_ones (H := recording) _ _ _ _ _ _ _ _
             (a_document_with_themes None None) E eq_refl "mine")).
Defined.


(** ** What each part of a configuration depends on *)

Section Dependence.
Context `{Collaborators}.

Lemma Config_init_document
    host server_name palette_name keymap_name p st cfg st' written :
  Config_init host server_name palette_name keymap_name p st = (Ok cfg, st') ->
  host_file host (expanduser (home st) p) = Valid written ->
  exists size_column : option loc,
    config cfg = with_size_column written size_column.
Proof.
  intros Hrun Hfile.
  by destruct (Config_init_of_file _ _ _ _ _ _ _ _ _ Hrun Hfile) as [? _].
Qed.

(** X8: the themes, the lists and the display options of a
    configuration come from the document alone.  Two runs that read the
    same document, on any hosts, for any servers, with any passwords,
    agree on all of them; they agree on the active palette and key map
    as well when the same name is wanted in both. *)
Theorem document_settings_ignore_the_server
    host1 server1 palette1 keymap1 p1 st1 cfg1 st1'
    host2 server2 palette2 keymap2 p2 st2 cfg2 st2' written :
  Config_init host1 server1 palette1 keymap1 p1 st1 = (Ok cfg1, st1') ->
  Config_init host2 server2 palette2 keymap2 p2 st2 = (Ok cfg2, st2') ->
  host_file host1 (expanduser (home st1) p1) = Valid written ->
  host_file host2 (expanduser (home st2) p2) = Valid written ->
  palettes cfg1 = palettes cfg2
  /\ keymaps cfg1 = keymaps cfg2
  /\ commentlinks cfg1 = commentlinks cfg2
  /\ dashboards cfg1 = dashboards cfg2
  /\ reviewkeys cfg1 = reviewkeys cfg2
  /\ hide_comments cfg1 = hide_comments cfg2
  /\ project_change_list_query cfg1 = project_change_list_query cfg2
  /\ diff_view cfg1 = diff_view cfg2
  /\ thread_changes cfg1 = thread_changes cfg2
  /\ utc cfg1 = utc cfg2
  /\ breadcrumbs cfg1 = breadcrumbs cfg2
  /\ close_change_on_review cfg1 = close_change_on_review cfg2
  /\ handle_mouse cfg1 = handle_mouse cfg2
  /\ change_list_options cfg1 = change_list_options cfg2
  /\ expire_age cfg1 = expire_age cfg2
  /\ (default palette1 (doc_palette written)
      = default palette2 (doc_palette written) ->
      palette cfg1 = palette cfg2)
  /\ (default keymap1 (doc_keymap written)
      = default keymap2 (doc_keymap written) ->
      keymap cfg1 = keymap cfg2).
Proof.
  intros Hrun1 Hrun2 Hfile1 Hfile2.
  destruct (Config_init_document _ _ _ _ _ _ _ _ _ Hrun1 Hfile1) as [sc1 Hc1].
  destruct (Config_init_document _ _ _ _ _ _ _ _ _ Hrun2 Hfile2) as [sc2 Hc2].
  destruct (Config_init_Ok _ _ _ _ _ _ _ _ Hrun1)
    as (doc1 & srv1 & s1 & _ & _ & _ & Hd1 & _ & _ & _ & Hp1 & Hps1 & Hk1
        & Hks1 & Hcl1 & Hda1 & Hrk1 & _).
  destruct (Config_init_Ok _ _ _ _ _ _ _ _ Hrun2)
    as (doc2 & srv2 & s2 & _ & _ & _ & Hd2 & _ & _ & _ & Hp2 & Hps2 & Hk2
        & Hks2 & Hcl2 & Hda2 & Hrk2 & _).
  rewrite Hc1 in Hd1. rewrite Hc2 in Hd2. subst doc1 doc2.
  cbn [with_size_column doc_palettes doc_palette doc_keymaps doc_keymap
       doc_commentlinks doc_dashboards doc_reviewkeys] in *.
  destruct (Config_init_Ok_rest _ _ _ _ _ _ _ _ Hrun1)
    as (w1 & ? & ? & Hf1 & _ & _ & _ & _ & _ & Hh1 & _ & _ & _ & _ & _ & _ & _
        & _ & _ & _ & _ & O1).
  destruct (Config_init_Ok_rest _ _ _ _ _ _ _ _ Hrun2)
    as (w2 & ? & ? & Hf2 & _ & _ & _ & _ & _ & Hh2 & _ & _ & _ & _ & _ & _ & _
        & _ & _ & _ & _ & O2).
  rewrite Hfile1 in Hf1. injection Hf1 as <-.
  rewrite Hfile2 in Hf2. injection Hf2 as <-.
  destruct O1 as (A1 & B1 & C1 & D1 & E1 & F1 & G1 & I1 & J1).
  destruct O2 as (A2 & B2 & C2 & D2 & E2 & F2 & G2 & I2 & J2).
  assert (hide_comments cfg1 = hide_comments cfg2) as Hhide.
  { destruct (resolve_hide_comments_pure
                (default [] (doc_hide_comments written))) as [r Hr].
    rewrite Hr in Hh1, Hh2. simpl in *. congruence. }
  repeat split; congruence.
Qed.


(** X10: the hidden authors of a configuration are the authors of the
    [hide-comments] of the file, compiled, one for one and in the
    order of the file; a run returns only when every one of them
    compiles. *)
Theorem hide_comments_are_compiled_in_order
    host server_name palette_name keymap_name p st cfg st' written :
  Config_init host server_name palette_name keymap_name p st = (Ok cfg, st') ->
  host_file host (expanduser (home st) p) = Valid written ->
  Forall2 (fun author pattern => re_compile author = Some pattern)
    (default [] (doc_hide_comments written)) (hide_comments cfg).
Proof.
  intros Hrun Hfile.
  destruct (Config_init_Ok_rest _ _ _ _ _ _ _ _ Hrun)
    as (written' & st0 & st1 & Hfile' & _ & _ & _ & _ & _ & Hh & _).
  rewrite Hfile in Hfile'. injection Hfile' as <-.
  revert Hh. generalize (hide_comments cfg).
  induction (default [] (doc_hide_comments written)) as [|a rest IH];
    intros patterns Hh; simpl in Hh.
  - injection Hh as <-. constructor.
  - destruct (re_compile a) as [r|] eqn:Hr; [|discriminate].
    unfold mbind, M_bind in Hh.
    destruct (resolve_hide_comments rest st) as [[rs | c | e] s] eqn:Hrest;
      simpl in Hh; try discriminate.
    injection Hh as <-. constructor; [done |]. by apply IH.
Qed.

(** X11: compiling the hidden authors stops at the first author that
    does not compile, with an error that names it, whatever comes after
    it; the step changes nothing in the state. *)
Theorem hide_comments_stop_at_the_first_bad_pattern good bad rest st :
  Forall (fun author => is_Some (re_compile author)) good ->
  re_compile bad = None ->
  resolve_hide_comments (good ++ bad :: rest) st = (Raised (ReError bad), st).
Proof.
  intros Hgood Hbad. induction Hgood as [|a good [r Hr] _ IH]; simpl.
  - by rewrite Hbad.
  - rewrite Hr. unfold mbind, M_bind. by rewrite IH.
Qed.

End Dependence.

Example settings_of_a_document_for_two :
  match Config_init (H := recording) (a_host a_document_for_two 0)
          (Some "test") "default" "default" DEFAULT_CONFIG_PATH (a_state ∅)
  with
  | (Ok cfg, _) =>
      srv_name (server cfg) = "test"
      /\ project_change_list_query cfg = "status:merged"
      /\ diff_view cfg = "side-by-side"
      /\ thread_changes cfg = false
      /\ breadcrumbs cfg = true
      /\ change_list_options cfg = (PStr "number", true)
      /\ expire_age cfg = "2 months"
      /\ hide_comments cfg = ["^jenkins$"; "bot"]
      /\ auth_type cfg = "digest"
      /\ dburi cfg = "sqlite:////home/user/.gertty.db"
      /\ socket_path cfg = "/home/user/.gertty.sock"
      /\ git_url cfg = "http://h/p/"
      /\ hostname cfg = "h"
  | _ => False
  end.
Proof. vm_compute. by repeat split. Qed.

Lemma document_settings_ignore_the_server_witness :
  match Config_init (H := recording) (a_host a_document_for_two 0)
          (Some "prod") "default" "default" DEFAULT_CONFIG_PATH (a_state ∅),
        Config_init (H := recording) (a_host a_document_for_two 420)
          (Some "test") "light" "vi" DEFAULT_CONFIG_PATH (a_state ∅)
  with
  | (Ok cfg1, _), (Ok cfg2, _) =>
      palettes cfg1 = palettes cfg2
      /\ keymaps cfg1 = keymaps cfg2
      /\ commentlinks cfg1 = commentlinks cfg2
      /\ dashboards cfg1 = dashboards cfg2
      /\ reviewkeys cfg1 = reviewkeys cfg2
      /\ hide_comments cfg1 = hide_comments cfg2
      /\ project_change_list_query cfg1 = project_change_list_query cfg2
      /\ diff_view cfg1 = diff_view cfg2
      /\ thread_changes cfg1 = thread_changes cfg2
      /\ utc cfg1 = utc cfg2
      /\ breadcrumbs cfg1 = breadcrumbs cfg2
      /\ close_change_on_review cfg1 = close_change_on_review cfg2
      /\ handle_mouse cfg1 = handle_mouse cfg2
      /\ change_list_options cfg1 = change_list_options cfg2
      /\ expire_age cfg1 = expire_age cfg2
      /\ (default "default" (doc_palette a_document_for_two)
          = default "light" (doc_palette a_document_for_two) ->
          palette cfg1 = palette cfg2)
      /\ (default "default" (doc_keymap a_document_for_two)
          = default "vi" (doc_keymap a_document_for_two) ->
          keymap cfg1 = keymap cfg2)
  | _, _ => False
  end.
Proof.
  set (run1 := Config_init (H := recording) (a_host a_document_for_two 0)
                 (Some "prod") "default" "default" DEFAULT_CONFIG_PATH
                 (a_state ∅)).
  set (run2 := Config_init (H := recording) (a_host a_document_for_two 420)
                 (Some "test") "light" "vi" DEFAULT_CONFIG_PATH (a_state ∅)).
  assert (returns run1 = true) as H1 by (vm_compute; reflexivity).
  assert (returns run2 = true) as H2 by (vm_compute; reflexivity).
  destruct run1 as [[cfg1 | ? | ?] s1] eqn:E1; [| done | done].
  destruct run2 as [[cfg2 | ? | ?] s2] eqn:E2; [| done | done].
  exact (document_settings_ignore_the_server (H := recording)
           _ _ _ _ _ _ _ _ _ _ _ _ _ _ _ _ a_document_for_two
           E1 E2 eq_refl eq_refl).
Defined.


Lemma hide_comments_are_compiled_in_order_witness :
  match Config_init (H := recording) (a_host a_document_for_two 0)
          None "default" "default" DEFAULT_CONFIG_PATH (a_state ∅)
  with
  | (Ok cfg, _) =>
      Forall2 (fun author pattern => Some author = Some pattern)
        ["^jenkins$"; "bot"] (hide_comments cfg)
  | _ => False
  end.
Proof.
  by_running ltac:(fun E =>
    exact (hide_comments_are_compiled_in_order (H := recording)
             _ _ _ _ _ _ _ _ a_document_for_two E eq_refl)).
Defined.

Lemma hide_comments_stop_at_the_first_bad_pattern_witness :
  resolve_hide_comments (H := recording_strictly)
    (["^jenkins$"; "bot"] ++ "(" :: ["zuul"]) (a_state ∅)
  = (Raised (ReError "("), a_state ∅).
Proof.
  apply (hide_comments_stop_at_the_first_bad_pattern (H := recording_strictly)).
  - repeat constructor; by eexists.
  - reflexivity.
Defined.

(** ** The dict objects *)

Lemma with_size_defaults_idem (d : dict) :
  with_size_defaults (with_size_defaults d) = with_size_defaults d.
Proof.
  pose proof (with_size_defaults_type d) as Ht.
  pose proof (with_size_defaults_thresholds d) as Hth.
  unfold with_size_defaults at 1. rewrite Ht, Hth. simpl.
  rewrite (insert_id _ "type") by done. by rewrite insert_id.
Qed.

Section Objects.
Context `{Collaborators}.

Lemma run_store host server_name palette_name keymap_name p st cfg st' :
  Config_init host server_name palette_name keymap_name p st = (Ok cfg, st') ->
  store st !! size_column cfg = None
  /\ exists d,
       store st' = <[size_column cfg := with_size_defaults d]> (store st)
       /\ (doc_size_column (config cfg) = None
           \/ doc_size_column (config cfg) = Some (size_column cfg)).
Proof.
  intros Hrun.
  destruct (Config_init_Ok_rest _ _ _ _ _ _ _ _ Hrun)
    as (written & st0 & st1 & Hfile & Hload & _).
  destruct (size_column_of_run _ _ _ _ _ _ _ _ _ Hrun Hfile)
    as (st0' & Hload' & Hst' & Hcase).
  rewrite Hload in Hload'. injection Hload' as <-.
  pose proof (yaml_safe_load_run written st) as Hl.
  destruct (doc_size_column written) as [d|].
  - cbv zeta in Hl. destruct Hl as [Hfresh Hl]. rewrite Hload in Hl.
    injection Hl as Hcfg Hst0. destruct Hcase as [Hsc _].
    rewrite Hcfg in Hsc. simpl in Hsc. injection Hsc as Hsc.
    rewrite Hsc in Hfresh, Hst0. split; [done |]. exists d.
    rewrite Hst', Hst0. simpl. rewrite insert_insert_eq.
    split; [done |]. right. by rewrite Hcfg, Hsc.
  - rewrite Hload in Hl. injection Hl as Hcfg <-. destruct Hcase as [_ Hnone].
    split; [done |]. exists ∅. split; [done |]. left. by rewrite Hcfg.
Qed.


(** X13: two configurations made one after the other, from the same
    file or not, never share the dict of their size column: the second
    run makes its own, and leaves the one of the first as it is. *)
Theorem size_columns_are_not_shared
    host1 server1 palette1 keymap1 p1 cfg1
    host2 server2 palette2 keymap2 p2 cfg2 st st1 st2 :
  Config_init host1 server1 palette1 keymap1 p1 st = (Ok cfg1, st1) ->
  Config_init host2 server2 palette2 keymap2 p2 st1 = (Ok cfg2, st2) ->
  size_column cfg2 <> size_column cfg1
  /\ store st2 !! size_column cfg1 = store st1 !! size_column cfg1
  /\ is_Some (store st2 !! size_column cfg1).
Proof.
  intros Hrun1 Hrun2.
  destruct (run_store _ _ _ _ _ _ _ _ Hrun1) as (_ & d1 & Hst1 & _).
  destruct (run_store _ _ _ _ _ _ _ _ Hrun2) as (Hnew2 & d2 & Hst2 & _).
  assert (store st1 !! size_column cfg1 = Some (with_size_defaults d1)) as Hl1
    by (rewrite Hst1; apply lookup_insert_eq).
  assert (size_column cfg2 <> size_column cfg1) as Hne by congruence.
  split; [done |].
  rewrite Hst2, lookup_insert_ne by done. split; [done |].
  rewrite Hl1. by eexists.
Qed.

(** X14: resolving the size column a second time changes nothing.
    After a run over a document that has a [size-column] section, the
    steps of lines 262-269 on the loaded document return the same dict
    object and leave every dict as it is. *)
Theorem size_column_resolution_is_idempotent
    host server_name palette_name keymap_name p st cfg st' :
  Config_init host server_name palette_name keymap_name p st = (Ok cfg, st') ->
  doc_size_column (config cfg) <> None ->
  resolve_size_column (config cfg) st' = (Ok (size_column cfg), st').
Proof.
  intros Hrun Hsome.
  destruct (run_store _ _ _ _ _ _ _ _ Hrun) as (_ & d & Hst' & [Hn | Hsc]);
    [done |].
  pose proof (resolve_size_column_run (config cfg) st') as Hstep.
  rewrite Hsc in Hstep. rewrite Hst', lookup_insert_eq in Hstep.
  rewrite Hstep. f_equal. destruct st' as [objects env evs].
  unfold set_store. simpl in *. f_equal.
  rewrite with_size_defaults_idem, insert_insert_eq. by subst objects.
Qed.

End Objects.

(** ** The URLs, once more *)

Lemma endswith_app (a b : string) :
  endswith b "/" = true -> endswith (a +:+ b) "/" = true.
Proof.
  intros Hb. induction a as [|c a IH]; [done |].
  change (endswith (String c a +:+ b) "/")
    with ((String c (a +:+ b) =? "/")%string || endswith (a +:+ b) "/").
  rewrite IH. apply orb_true_r.
Qed.

Lemma with_trailing_slash_fixed (u : string) :
  endswith u "/" = true -> with_trailing_slash u = u.
Proof. intros Hu. unfold with_trailing_slash. by rewrite Hu. Qed.

Section UrlsOnceMore.
Context `{Collaborators}.

(** X15: the URLs of a configuration are in the form the constructor
    gives them: giving a resolved [url] or [git_url] back as input
    yields it unchanged.  With no [git-url] in the server record the
    [git_url] is exactly the resolved [url] and [p/], with no second
    slash added, and a [git-url] that ends with a slash is kept as it
    is. *)
Theorem resolved_urls_are_fixed_points
    host server_name palette_name keymap_name p st cfg st' :
  Config_init host server_name palette_name keymap_name p st = (Ok cfg, st') ->
  with_trailing_slash (url cfg) = url cfg
  /\ with_trailing_slash (git_url cfg) = git_url cfg
  /\ (srv_git_url (server cfg) = None -> git_url cfg = url cfg +:+ "p/")
  /\ (forall g, srv_git_url (server cfg) = Some g -> endswith g "/" = true ->
                git_url cfg = g)
  /\ urlparse_netloc (url cfg) = Some (hostname cfg).
Proof.
  intros Hrun.
  destruct (Config_init_Ok _ _ _ _ _ _ _ _ Hrun)
    as (doc & srv & st1 & _ & _ & _ & _ & Hsrv & Hurl & Hgit & _).
  destruct (Config_init_Ok_rest _ _ _ _ _ _ _ _ Hrun)
    as (? & ? & ? & _ & _ & _ & _ & _ & _ & _ & _ & Hhost & _).
  subst srv.
  destruct (with_trailing_slash_spec (srv_url (server cfg))) as (U1 & _).
  destruct (with_trailing_slash_spec
              (default (url cfg +:+ "p/") (srv_git_url (server cfg))))
    as (G1 & _).
  rewrite <- Hurl in U1. rewrite <- Hgit in G1.
  split; [by apply with_trailing_slash_fixed |].
  split; [by apply with_trailing_slash_fixed |].
  split; [| split; [| done]].
  - intros Hnone. rewrite Hgit, Hnone. simpl.
    apply with_trailing_slash_fixed. by apply endswith_app.
  - intros g Hg Hends. rewrite Hgit, Hg. simpl.
    by apply with_trailing_slash_fixed.
Qed.

End UrlsOnceMore.


Lemma size_columns_are_not_shared_witness :
  match Config_init (H := recording)
          (a_host (a_document_with_size_column {[ "type" := PStr "number" ]}) 0)
          None "default" "default" DEFAULT_CONFIG_PATH (a_state ∅)
  with
  | (Ok cfg1, st1) =>
      match Config_init (H := recording)
              (a_host (a_document [a_server "http://h" None None]) 0)
              None "default" "default" DEFAULT_CONFIG_PATH st1
      with
      | (Ok cfg2, st2) =>
          size_column cfg2 <> size_column cfg1
          /\ store st2 !! size_column cfg1 = store st1 !! size_column cfg1
          /\ is_Some (store st2 !! size_column cfg1)
      | _ => False
      end
  | _ => False
  end.
Proof.
  set (run1 := Config_init (H := recording)
                 (a_host (a_document_with_size_column
                            {[ "type" := PStr "number" ]}) 0)
                 None "default" "default" DEFAULT_CONFIG_PATH (a_state ∅)).
  assert (match run1 with
          | (Ok _, st1) =>
              returns (Config_init (H := recording)
                         (a_host (a_document [a_server "http://h" None None]) 0)
                         None "default" "default" DEFAULT_CONFIG_PATH st1)
              = true
          | _ => False
          end) as H12 by (vm_compute; reflexivity).
  destruct run1 as [[cfg1 | ? | ?] st1] eqn:E1; [| done | done].
  destruct (Config_init (H := recording)
              (a_host (a_document [a_server "http://h" None None]) 0)
              None "default" "default" DEFAULT_CONFIG_PATH st1)
    as [[cfg2 | ? | ?] st2] eqn:E2; [| done | done].
  exact (size_columns_are_not_shared (H := recording)
           _ _ _ _ _ _ _ _ _ _ _ _ _ _ _ E1 E2).
Defined.

Lemma size_column_resolution_is_idempotent_witness :
  match Config_init (H := recording)
          (a_host (a_document_with_size_column {[ "type" := PStr "number" ]}) 0)
          None "default" "default" DEFAULT_CONFIG_PATH (a_state ∅)
  with
  | (Ok cfg, st') =>
      resolve_size_column (config cfg) st' = (Ok (size_column cfg), st')
  | _ => False
  end.
Proof.
  set (run := Config_init (H := recording)
                (a_host (a_document_with_size_column
                           {[ "type" := PStr "number" ]}) 0)
                None "default" "default" DEFAULT_CONFIG_PATH (a_state ∅)).
  assert (match run with
          | (Ok cfg, _) => doc_size_column (config cfg) <> None
          | _ => False
          end) as Hsome by (vm_compute; discriminate).
  destruct run as [[cfg | ? | ?] st'] eqn:E; [| done | done].
  exact (size_column_resolution_is_idempotent (H := recording)
           _ _ _ _ _ _ _ _ E Hsome).
Defined.

Lemma resolved_urls_are_fixed_points_witness :
  match Config_init (H := recording)
          (a_host (a_document [a_server "http://h" None None]) 0)
          None "default" "default" DEFAULT_CONFIG_PATH (a_state ∅)
  with
  | (Ok cfg, _) =>
      with_trailing_slash (url cfg) = url cfg
      /\ with_trailing_slash (git_url cfg) = git_url cfg
      /\ (srv_git_url (server cfg) = None -> git_url cfg = url cfg +:+ "p/")
      /\ (forall g, srv_git_url (server cfg) = Some g -> endswith g "/" = true ->
                    git_url cfg = g)
      /\ netloc (url cfg) = Some (hostname cfg)
  | _ => False
  end.
Proof.
  by_running ltac:(fun E =>
    exact (resolved_urls_are_fixed_points _ _ _ _ _ _ _ _ E)).
Defined.

(** ** Ordered mappings, once more *)

Lemma od_get_elem_of {V} (k : string) (v : V) (od : list (string * V)) :
  NoDup (od_keys od) -> od_get k od = Some v <-> (k, v) ∈ od.
Proof.
  induction od as [|[k' v'] od IH]; simpl.
  - intros _. split; [done | by intros ?%elem_of_nil].
  - intros [Hnotin Hnd]%NoDup_cons. rewrite elem_of_cons.
    destruct (String.eqb k' k) eqn:E.
    + apply String.eqb_eq in E as ->. split.
      * intros [= ->]. by left.
      * intros [[= ->] | Hin]; [done |]. destruct Hnotin.
        unfold od_keys. apply list_elem_of_fmap. by exists (k, v).
    + apply String.eqb_neq in E. rewrite IH by done. split.
      * by right.
      * intros [[= -> ->] | ?]; done.
Qed.

Lemma first_seen_length (l : list string) :
  (length (first_seen l) <= length l)%nat.
Proof.
  induction l as [|a l IH]; simpl; [done |].
  pose proof (length_filter (fun k' => k' <> a) (first_seen l)). lia.
Qed.

Lemma keyed_is_well_keyed {V} (key : V -> string) (l : list V) :
  is_well_keyed key l (keyed key l).
Proof.
  assert (NoDup (od_keys (keyed key l))) as Hnd
    by (rewrite keyed_keys; apply NoDup_first_seen).
  split; [done |]. split; [intros k v; by apply od_get_elem_of |].
  split; [| split].
  - intros k v Hin. apply od_get_elem_of in Hin; [| done].
    rewrite keyed_get in Hin. unfold latest in Hin.
    apply last_Some_elem_of in Hin. by apply list_elem_of_filter in Hin as [? ?].
  - intros e He. rewrite keyed_get. unfold latest. apply last_is_Some.
    intros Hnil.
    assert (e ∈ filter (fun d => key d = key e) l) as Hin
      by by apply list_elem_of_filter.
    rewrite Hnil in Hin. by apply elem_of_nil in Hin.
  - rewrite <- (length_map fst (keyed key l)).
    change (map fst (keyed key l)) with (od_keys (keyed key l)).
    rewrite keyed_keys. etrans; [apply first_seen_length |].
    by rewrite length_map.
Qed.

Section WellKeyed.
Context `{Collaborators}.

(** X16: the dashboards and the review keys of a configuration are
    well keyed over the lists of the file: no key twice, a lookup by
    key finds exactly the item of that key, every item is an entry of
    the file filed under its own [key], every entry's key can be looked
    up, and the mapping is no longer than the list. *)
Theorem dashboards_and_reviewkeys_are_well_keyed
    host server_name palette_name keymap_name p st cfg st' written :
  Config_init host server_name palette_name keymap_name p st = (Ok cfg, st') ->
  host_file host (expanduser (home st) p) = Valid written ->
  is_well_keyed dash_key (default [] (doc_dashboards written)) (dashboards cfg)
  /\ is_well_keyed rk_key (default [] (doc_reviewkeys written))
       (reviewkeys cfg).
Proof.
  intros Hrun Hfile.
  destruct (Config_init_of_file _ _ _ _ _ _ _ _ _ Hrun Hfile) as [[sc Hc] _].
  destruct (Config_init_Ok _ _ _ _ _ _ _ _ Hrun)
    as (doc & srv & st1 & _ & _ & _ & Hdoc & _ & _ & _ & _ & _ & _ & _
        & _ & Hd & Hr & _).
  rewrite <- Hdoc, Hc in Hd, Hr.
  cbn [with_size_column doc_dashboards doc_reviewkeys] in Hd, Hr.
  rewrite Hd, Hr. split; apply keyed_is_well_keyed.
Qed.

End WellKeyed.

Lemma dashboards_and_reviewkeys_are_well_keyed_witness :
  match Config_init (H := recording) (a_host a_document_with_lists 0)
          None "default" "default" DEFAULT_CONFIG_PATH (a_state ∅)
  with
  | (Ok cfg, _) =>
      is_well_keyed dash_key three_dashboards (dashboards cfg)
      /\ is_well_keyed rk_key three_reviewkeys (reviewkeys cfg)
  | _ => False
  end.
Proof.
  by_running ltac:(fun E =>
    exact (dashboards_and_reviewkeys_are_well_keyed (H := recording)
             _ _ _ _ _ _ _ _ a_document_with_lists E eq_refl)).
Defined.

(** ** The enumerations of the schema *)

Ltac in_list :=
  solve [repeat first [apply list_elem_of_here | apply list_elem_of_further]].

Lemma validate__sort_by (v : pyval) :
  VoluptuousAny.validate ConfigSchemaAny._sort_by v = true <-> is_sort_key v.
Proof.
  unfold is_sort_key, sort_keys. split.
  - destruct v as [| | | s |]; try discriminate. simpl.
    rewrite !orb_true_iff, !String.eqb_eq.
    intros [-> | [-> | [-> | [-> | []%diff_false_true]]]];
      eexists; (split; [| reflexivity]); in_list.
  - intros (s & Hs & ->). simpl. rewrite !orb_true_iff, !String.eqb_eq.
    rewrite !elem_of_cons in Hs.
    destruct Hs as [-> | [-> | [-> | [-> | []%elem_of_nil]]]]; tauto.
Qed.

Lemma schema_nested_ind (P : Voluptuous.schema -> Prop) :
  (forall t, P (Voluptuous.SType t)) ->
  (forall alternatives,
      Forall P alternatives -> P (Voluptuous.SList alternatives)) ->
  forall s, P s.
Proof.
  intros Ht Hl. fix ind 1. intros [t | alternatives]; [apply Ht |].
  apply Hl. revert alternatives. fix all 1.
  intros [|a alternatives]; constructor; [apply ind | apply all].
Qed.

(** The two models of the validation library agree on the schemas that
    both can write. *)
Lemma validate_lift (s : Voluptuous.schema) (v : pyval) :
  VoluptuousAny.validate (VoluptuousAny.lift s) v = Voluptuous.validate s v.
Proof.
  revert v. induction s as [t | alternatives IH] using schema_nested_ind.
  - done.
  - intros v. simpl. destruct v as [| | | | values]; try done.
    assert (forall value,
              existsb (fun alt => VoluptuousAny.validate alt value)
                (map VoluptuousAny.lift alternatives)
              = existsb (fun alt => Voluptuous.validate alt value) alternatives)
      as Hex.
    { intros value. induction IH as [|b bs Hb _ IHb]; [done |].
      cbn [map existsb]. by rewrite Hb, IHb. }
    destruct alternatives as [|a alternatives]; [done |].
    change (map VoluptuousAny.lift (a :: alternatives))
      with (VoluptuousAny.lift a :: map VoluptuousAny.lift alternatives) in *.
    cbv iota.
    induction values as [|value values IHv]; [done |].
    cbn [forallb]. by rewrite Hex, IHv.
Qed.

(** X17: the schema [sort_by] accepts one of the four ways to sort, or
    a list, of any length and also empty, each of whose elements is one
    of the four; it accepts nothing else: no other string, no list in a
    list. *)
Theorem sort_by_accepts_a_key_or_a_list_of_keys (v : pyval) :
  VoluptuousAny.validate ConfigSchemaAny.sort_by v = true <->
  is_sort_key v \/ exists l, v = PList l /\ Forall is_sort_key l.
Proof.
  unfold ConfigSchemaAny.sort_by.
  change (VoluptuousAny.validate (VoluptuousAny.SAny _) v)
    with (VoluptuousAny.validate ConfigSchemaAny._sort_by v
          || (VoluptuousAny.validate
                (VoluptuousAny.SList [ConfigSchemaAny._sort_by]) v || false)).
  rewrite orb_false_r, orb_true_iff, validate__sort_by.
  split; (intros [Hk | Hl]; [by left | right]).
  - destruct v as [| | | | l]; try discriminate. exists l. split; [done |].
    change (forallb (fun value =>
              VoluptuousAny.validate ConfigSchemaAny._sort_by value || false) l
            = true) in Hl.
    rewrite forallb_forall in Hl. apply Forall_forall.
    intros x Hx%list_elem_of_In. specialize (Hl x Hx).
    rewrite orb_false_r in Hl. by apply validate__sort_by.
  - destruct Hl as (l & -> & Hall).
    change (forallb (fun value =>
              VoluptuousAny.validate ConfigSchemaAny._sort_by value || false) l
            = true).
    apply forallb_forall. intros x Hx%list_elem_of_In.
    rewrite Forall_forall in Hall. rewrite orb_false_r.
    apply validate__sort_by. by apply Hall.
Qed.

(** X18: the schema of [auth-type] accepts the strings [basic],
    [digest] and [form] and nothing else; the schema of the type of the
    size column accepts [graph], [split-graph], [number], [disabled]
    and [None], and nothing else. *)
Theorem enumerations_accept_their_values (v : pyval) :
  (VoluptuousAny.validate ConfigSchemaAny.auth_type v = true <->
   v ∈ [PStr "basic"; PStr "digest"; PStr "form"])
  /\ (VoluptuousAny.validate ConfigSchemaAny.size_column_type v = true <->
      v ∈ [PStr "graph"; PStr "split-graph"; PStr "number"; PStr "disabled";
           PNone]).
Proof.
  split; split.
  - destruct v as [| | | s |]; try discriminate. simpl.
    rewrite !orb_true_iff, !String.eqb_eq.
    intros [-> | [-> | [-> | []%diff_false_true]]]; in_list.
  - rewrite !elem_of_cons. intros [-> | [-> | [-> | []%elem_of_nil]]]; done.
  - destruct v as [| | | s |]; try discriminate.
    + intros _. in_list.
    + simpl. rewrite !orb_true_iff, !String.eqb_eq.
      intros [-> | [-> | [-> | [-> | ?]]]]; try done; in_list.
  - rewrite !elem_of_cons.
    intros [-> | [-> | [-> | [-> | [-> | []%elem_of_nil]]]]]; done.
Qed.

Section SizeColumnSchema.
Context `{Collaborators}.

(** X19: resolution keeps the size column within the schema.  If the
    [type] and the [thresholds] that the document gives, where it gives
    them, pass the schema of [size-column], then the resolved size
    column has a [type] and [thresholds] that pass it too: the values
    written for absent keys are values that the schema accepts. *)
Theorem resolved_size_column_passes_the_schema
    host server_name palette_name keymap_name p st cfg st' written :
  Config_init host server_name palette_name keymap_name p st = (Ok cfg, st') ->
  host_file host (expanduser (home st) p) = Valid written ->
  let supplied : dict := default ∅ (doc_size_column written) in
  (forall t, supplied !! "type" = Some t ->
     VoluptuousAny.validate ConfigSchemaAny.size_column_type t = true) ->
  (forall th, supplied !! "thresholds" = Some th ->
     Voluptuous.validate ConfigSchema.thresholds th = true) ->
  exists t th,
    (store st' !! size_column cfg ≫= (.!! "type")) = Some t
    /\ VoluptuousAny.validate ConfigSchemaAny.size_column_type t = true
    /\ (store st' !! size_column cfg ≫= (.!! "thresholds")) = Some th
    /\ Voluptuous.validate ConfigSchema.thresholds th = true.
Proof.
  intros Hrun Hfile supplied Htype Hth.
  destruct (size_column_of_run _ _ _ _ _ _ _ _ _ Hrun Hfile)
    as (st0 & _ & Hst' & _).
  fold supplied in Hst'. rewrite Hst', lookup_insert_eq. simpl.
  rewrite with_size_defaults_type, with_size_defaults_thresholds.
  eexists _, _. split; [done |]. split; [| split; [done |]].
  - destruct (supplied !! "type") as [t|] eqn:Ht; [by apply Htype | done].
  - destruct (supplied !! "thresholds") as [th|] eqn:Hs; [by apply Hth |].
    simpl. by destruct (py_eq_str _ _).
Qed.

End SizeColumnSchema.

Lemma resolved_size_column_passes_the_schema_witness :
  match Config_init (H := recording)
          (a_host (a_document_with_size_column {[ "type" := PStr "number" ]}) 0)
          None "default" "default" DEFAULT_CONFIG_PATH (a_state ∅)
  with
  | (Ok cfg, st') =>
      exists t th,
        (store st' !! size_column cfg ≫= (.!! "type")) = Some t
        /\ VoluptuousAny.validate ConfigSchemaAny.size_column_type t = true
        /\ (store st' !! size_column cfg ≫= (.!! "thresholds")) = Some th
        /\ Voluptuous.validate ConfigSchema.thresholds th = true
  | _ => False
  end.
Proof.
  by_running ltac:(fun E =>
    refine (resolved_size_column_passes_the_schema (H := recording)
              _ _ _ _ _ _ _ _
              (a_document_with_size_column {[ "type" := PStr "number" ]})
              E eq_refl _ _);
    [ intros t Ht; vm_compute in Ht; injection Ht as <-; reflexivity
    | intros th Hth; vm_compute in Hth; discriminate ]).
Defined.
